(** * fastly-logging-creds: the clone / mutate / activate workflow

    A shallow embedding of [main.go] (the current program, the second
    document of the file: [main], [rotateCreds], [describeLogs],
    [deleteLogs], [createLogs], [checkArgs], [check], [updateService],
    [getActiveService], [cloneService], [updateLoggingCreds],
    [createLogConfiguration], [getLogConfiguration],
    [deleteLogConfiguration], [activateService], [fastlyHTTP]).

    The program is sequential and talks to the outside only through
    [client.Do], standard output and [os.Exit].  It is embedded by explicit
    state passing over a [World] that records every request handed to the
    HTTP client and everything printed.  The remote service is a function of
    the requests seen so far; the Go standard library functions the program
    calls (JSON decoding, form encoding, URL validation) are the fields of
    the class [GoLib], so every theorem holds whatever they compute. *)

From Stdlib Require Import ZArith Ascii String List Lia.
From stdpp Require Import base strings gmap pretty list sorting.

Open Scope string_scope.
Open Scope Z_scope.

(** ** Go values *)

(** A non-nil Go [error]; the program only tests errors against [nil] and
    prints their message.  [errors.New s] and [fmt.Errorf] build one from
    its message. *)
Record err := errors_New { Error : string }.

(** The Go type [error]: [None] is [nil]. *)
Abbreviation error := (option err).

(** [type Version struct { Active bool; Number int }] *)
Record Version := mkVersion { Active : bool; Number : Z }.

(** [http.MethodGet] and friends are string constants. *)
Definition MethodGet : string := "GET".
Definition MethodPut : string := "PUT".
Definition MethodPost : string := "POST".
Definition MethodDelete : string := "DELETE".
Definition StatusOK : Z := 200.

Definition newline : string := String "010"%char EmptyString.

(** The part of [*http.Request] the program sets: method, URL, the headers
    in the order they were added, and the body it will send ([None] for a
    nil reader). *)
Record Request := mkRequest {
  Method : string;
  URL : string;
  Header : list (string * string);
  Body : option string
}.

(** The part of [*http.Response] the program reads: the status code, and
    what [ioutil.ReadAll(resp.Body)] returns. *)
Record Response := mkResponse {
  StatusCode : Z;
  ReadAll : string * error
}.

(** What [client.Do] returns for a request, given the requests sent before
    it: an error, or a response. *)
Definition Remote := list Request -> Request -> err + Response.

(** The standard-library functions the program calls. *)
Class GoLib := {
  (** [http.NewRequest method url body]: the error it returns, if any (the
      methods used are valid, so it fails only on a URL that does not
      parse). *)
  NewRequest_err : string -> string -> error;
  (** [url.Values.Encode] *)
  Encode : gmap string (list string) -> string;
  (** [json.Unmarshal(body, &data)] for [var data []Version]: the contents of
      [data] afterwards, and the error. *)
  Unmarshal_Versions : string -> list Version * error;
  (** [json.Unmarshal(body, &data)] for [var data Version]. *)
  Unmarshal_Version : string -> Version * error;
  (** [json.Unmarshal(data, &confs)] for [var confs []map[string]string]. *)
  Unmarshal_confs : string -> list (gmap string string) * error;
  (** [json.Indent(&buf, data, "", "    ")] on an empty buffer: the contents
      of [buf] afterwards (the program drops the error). *)
  Indent : string -> string;
  (** what [flag.PrintDefaults] writes for the three flags of [main] *)
  PrintDefaults : string
}.

(** ** The world and the two monads *)

Record World := mkWorld {
  trace : list Request;   (* requests handed to client.Do, oldest first *)
  stdout : string;
  stderr : string
}.

Definition send (req : Request) (w : World) : World :=
  mkWorld (trace w ++ [req]) (stdout w) (stderr w).

Definition print (s : string) (w : World) : World :=
  mkWorld (trace w) (stdout w +:+ s) (stderr w).

Definition eprint (s : string) (w : World) : World :=
  mkWorld (trace w) (stdout w) (stderr w +:+ s).

(** Functions that return to their caller. *)
Definition IO (A : Type) : Type := World -> World * A.

Definition ret {A} (a : A) : IO A := fun w => (w, a).

Definition bind {A B} (m : IO A) (k : A -> IO B) : IO B :=
  fun w => let (w', a) := m w in k a w'.

Notation "'let!' x ':=' m 'in' k" := (bind m (fun x => k))
  (at level 10, x pattern, m at level 100, k at level 200).

(** Functions that may end the process: [os.Exit] and run-time panics. *)
Inductive Outcome (A : Type) : Type :=
| Done (a : A)
| Exit (code : Z)
| Panic (msg : string).
Arguments Done {A} a.
Arguments Exit {A} code.
Arguments Panic {A} msg.

Definition Proc (A : Type) : Type := World -> World * Outcome A.

Definition pbind {A B} (m : Proc A) (k : A -> Proc B) : Proc B :=
  fun w =>
    match m w with
    | (w', Done a) => k a w'
    | (w', Exit c) => (w', Exit c)
    | (w', Panic s) => (w', Panic s)
    end.

Definition lift {A} (m : IO A) : Proc A :=
  fun w => let (w', a) := m w in (w', Done a).

Definition os_Exit {A} (code : Z) : Proc A := fun w => (w, Exit code).

Notation "'run!' x ':=' m 'in' k" := (pbind m (fun x => k))
  (at level 10, x pattern, m at level 100, k at level 200).

Section Program.

Context {lib : GoLib} (remote : Remote).

(** ** The request helper *)

Definition client_Do (req : Request) : IO (err + Response) :=
  fun w => (send req w, remote (trace w) req).

Definition api_request (method reqURL fastlyKey : string)
    (reqBody : option string) : Request :=
  mkRequest method reqURL
    [("Fastly-Key", fastlyKey); ("Accept", "application/json")] reqBody.

Definition api_failed (reqURL : string) (status : Z) (body : string) : err :=
  errors_New ("Fastly API request for '" +:+ reqURL +:+ "' failed: "
              +:+ pretty status +:+ ", " +:+ body).

Definition fastlyHTTP (path method fastlyKey : string)
    (reqBody : option string) : IO (string * error) :=
  let reqURL := "https://api.fastly.com" +:+ path in
  match NewRequest_err method reqURL with
  | Some e => ret ("", Some e)
  | None =>
      let req := api_request method reqURL fastlyKey reqBody in
      let! r := client_Do req in
      match r with
      | inl e => ret ("", Some e)
      | inr resp =>
          match ReadAll resp with
          | (_, Some e) => ret ("", Some e)
          | (body, None) =>
              if decide (StatusCode resp ≠ StatusOK)
              then ret ("", Some (api_failed reqURL (StatusCode resp) body))
              else ret (body, None)
          end
      end
  end.

(** ** Operations on the service *)

(** The loop of [getActiveService] over the decoded versions. *)
Fixpoint firstActive (data : list Version) : Z * error :=
  match data with
  | [] => (0, Some (errors_New "No active version found."))
  | version :: rest =>
      if Active version then (Number version, None) else firstActive rest
  end.

Definition getActiveService (serviceID fastlyKey : string) : IO (Z * error) :=
  let reqURL := "/service/" +:+ serviceID +:+ "/version" in
  let! (body, e) := fastlyHTTP reqURL MethodGet fastlyKey None in
  match e with
  | Some _ => ret (0, e)
  | None =>
      let '(data, e) := Unmarshal_Versions body in
      match e with
      | Some _ => ret (0, e)
      | None => ret (firstActive data)
      end
  end.

Definition cloneService (serviceID : string) (versionID : Z)
    (fastlyKey : string) : IO (Z * error) :=
  let reqURL := "/service/" +:+ serviceID +:+ "/version/"
                +:+ pretty versionID +:+ "/clone" in
  let! (body, e) := fastlyHTTP reqURL MethodPut fastlyKey None in
  match e with
  | Some _ => ret (0, e)
  | None => let '(data, e) := Unmarshal_Version body in ret (Number data, e)
  end.

Definition updateLoggingCreds (serviceID : string) (versionID : Z)
    (loggingName fastlyKey awsAccessKey awsSecretKey : string) : IO error :=
  let reqURL := "/service/" +:+ serviceID +:+ "/version/"
                +:+ pretty versionID +:+ "/logging/s3/" +:+ loggingName in
  let form : gmap string (list string) :=
    {[ "access_key" := [awsAccessKey]; "secret_key" := [awsSecretKey] ]} in
  let body := Some (Encode form) in
  let! (_, e) := fastlyHTTP reqURL MethodPut fastlyKey body in
  ret e.

Definition createLogConfiguration (serviceID : string) (versionID : Z)
    (fastlyKey awsAccessKey awsSecretKey : string) : IO error :=
  let reqURL := "/service/" +:+ serviceID +:+ "/version/"
                +:+ pretty versionID +:+ "/logging/s3" in
  let form : gmap string (list string) :=
    {[ "name" := ["s3-logs"];
       "access_key" := [awsAccessKey];
       "secret_key" := [awsSecretKey];
       "bucket_name" := ["aws-frontend-logs"];
       "path" := ["/fastly/" +:+ serviceID] ]} in
  let body := Some (Encode form) in
  let! (_, e) := fastlyHTTP reqURL MethodPost fastlyKey body in
  ret e.

Definition getLogConfiguration (serviceID : string) (versionID : Z)
    (fastlyKey : string) : IO (string * error) :=
  let reqURL := "/service/" +:+ serviceID +:+ "/version/"
                +:+ pretty versionID +:+ "/logging/s3" in
  let! (body, e) := fastlyHTTP reqURL MethodGet fastlyKey None in
  match e with
  | Some _ => ret ("", e)
  | None => ret (body, None)
  end.

(** [c["name"]]: a missing key reads as the empty string. *)
Definition conf_name (c : gmap string string) : string :=
  default "" (c !! "name").

(** The loop of [deleteLogConfiguration] over the decoded endpoints. *)
Fixpoint deleteEach (serviceID : string) (versionID : Z) (fastlyKey : string)
    (confs : list (gmap string string)) : IO error :=
  match confs with
  | [] => ret None
  | c :: rest =>
      let reqURL := "/service/" +:+ serviceID +:+ "/version/"
                    +:+ pretty versionID +:+ "/logging/s3/" +:+ conf_name c in
      let! (_, e) := fastlyHTTP reqURL MethodDelete fastlyKey None in
      match e with
      | Some e =>
          ret (Some (errors_New ("Unable to delete logging service "
                                 +:+ conf_name c +:+ ": " +:+ Error e)))
      | None => deleteEach serviceID versionID fastlyKey rest
      end
  end.

Definition deleteLogConfiguration (serviceID : string) (versionID : Z)
    (fastlyKey : string) : IO error :=
  let! (data, e) := getLogConfiguration serviceID versionID fastlyKey in
  match e with
  | Some _ => ret e
  | None =>
      let '(confs, e) := Unmarshal_confs data in
      match e with
      | Some _ => ret e
      | None => deleteEach serviceID versionID fastlyKey confs
      end
  end.

Definition activateService (serviceID : string) (versionID : Z)
    (fastlyKey : string) : IO error :=
  let reqURL := "/service/" +:+ serviceID +:+ "/version/"
                +:+ pretty versionID +:+ "/activate" in
  let! (_, e) := fastlyHTTP reqURL MethodPut fastlyKey None in
  ret e.

(** ** The workflow *)

Definition updateService (fastlyKey serviceID : string)
    (fn : Z -> IO error) : IO error :=
  let! (activeVersion, e) := getActiveService serviceID fastlyKey in
  match e with
  | Some _ => ret e
  | None =>
      let! (newVersion, e) := cloneService serviceID activeVersion fastlyKey in
      match e with
      | Some _ => ret e
      | None =>
          let! e := fn newVersion in
          match e with
          | Some _ => ret e
          | None => activateService serviceID newVersion fastlyKey
          end
      end
  end.

(** The four closures handed to [updateService]. *)
Definition rotateCreds_fn (fastlyKey serviceID loggingName awsAccessKey
    awsSecretKey : string) (versionID : Z) : IO error :=
  updateLoggingCreds serviceID versionID loggingName fastlyKey
    awsAccessKey awsSecretKey.

Definition describeLogs_fn (fastlyKey serviceID : string) (versionID : Z)
    : IO error :=
  let! (data, e) := getLogConfiguration serviceID versionID fastlyKey in
  match e with
  | Some _ => ret e
  | None => fun w => (print (Indent data +:+ newline) w, None)
  end.

Definition deleteLogs_fn (fastlyKey serviceID : string) (versionID : Z)
    : IO error :=
  deleteLogConfiguration serviceID versionID fastlyKey.

Definition createLogs_fn (fastlyKey serviceID awsAccessKey
    awsSecretKey : string) (versionID : Z) : IO error :=
  createLogConfiguration serviceID versionID fastlyKey
    awsAccessKey awsSecretKey.

Definition check (e : error) : Proc unit :=
  match e with
  | Some e => fun w => (print (Error e +:+ newline) w, Exit 1)
  | None => fun w => (w, Done tt)
  end.

Definition rotateCreds (fastlyKey serviceID loggingName awsAccessKey
    awsSecretKey : string) : Proc unit :=
  run! e := lift (updateService fastlyKey serviceID
                    (rotateCreds_fn fastlyKey serviceID loggingName
                       awsAccessKey awsSecretKey)) in
  check e.

Definition describeLogs (fastlyKey serviceID : string) : Proc unit :=
  run! e := lift (updateService fastlyKey serviceID
                    (describeLogs_fn fastlyKey serviceID)) in
  check e.

Definition deleteLogs (fastlyKey serviceID : string) : Proc unit :=
  run! e := lift (updateService fastlyKey serviceID
                    (deleteLogs_fn fastlyKey serviceID)) in
  check e.

Definition createLogs (fastlyKey serviceID awsAccessKey
    awsSecretKey : string) : Proc unit :=
  run! e := lift (updateService fastlyKey serviceID
                    (createLogs_fn fastlyKey serviceID awsAccessKey
                       awsSecretKey)) in
  check e.

End Program.

(** ** The [flag] package, for string flags

    [main] parses its flags with [flag.CommandLine.Parse].  The model below
    follows [FlagSet.parseOne] and [FlagSet.Parse] of the Go standard
    library for flags made by [flag.String]: [formal] maps each defined
    flag to its current value, [actual] holds the flags that were set, and
    [args] is what remains after the flags. *)

Record FlagSet := mkFlagSet {
  formal : gmap string string;
  actual : gset string;
  args : list string
}.

Definition CommandLine : FlagSet := mkFlagSet ∅ ∅ [].

(** [flag.String(name, value, usage)] *)
Definition flag_String (name value : string) (f : FlagSet) : FlagSet :=
  mkFlagSet (<[name := value]> (formal f)) (actual f) (args f).

(** [*p] for the pointer [flag.String] returned for [name]. *)
Definition flagValue (f : FlagSet) (name : string) : string :=
  default "" (formal f !! name).

Inductive Arg :=
| NotAFlag                                  (* ends the flags, stays in args *)
| Terminator                                (* "--" *)
| BadSyntax
| IsFlag (name : string) (value : option string).

(** Splits at the first '=': the text before it, and the text after it when
    there is one. *)
Fixpoint cutAtEq (s : string) : string * option string :=
  match s with
  | EmptyString => (EmptyString, None)
  | String c r =>
      if Ascii.eqb c "="%char then (EmptyString, Some r)
      else let '(n, v) := cutAtEq r in (String c n, v)
  end.

Definition scanArg (s : string) : Arg :=
  match s with
  | String "-"%char (String c r) =>
      if Ascii.eqb c "-"%char && String.eqb r "" then Terminator
      else
        let name := if Ascii.eqb c "-"%char then r else String c r in
        match name with
        | EmptyString => BadSyntax
        | String c0 r0 =>
            if Ascii.eqb c0 "-"%char || Ascii.eqb c0 "="%char then BadSyntax
            else let '(n, v) := cutAtEq r0 in IsFlag (String c0 n) v
        end
  | _ => NotAFlag
  end.

Inductive ParseErr :=
| ErrHelp
| failf (msg : string).

Definition setFlag (name value : string) (formal : gmap string string)
    (actual : gset string) : gmap string string * gset string :=
  (<[name := value]> formal, {[ name ]} ∪ actual).

(** [Parse]: [parseOne] repeated until an argument is not a flag. *)
Fixpoint parseFlags (formal : gmap string string) (actual : gset string)
    (arguments : list string) : ParseErr + FlagSet :=
  match arguments with
  | [] => inr (mkFlagSet formal actual [])
  | s :: rest =>
      match scanArg s with
      | NotAFlag => inr (mkFlagSet formal actual (s :: rest))
      | Terminator => inr (mkFlagSet formal actual rest)
      | BadSyntax => inl (failf ("bad flag syntax: " +:+ s))
      | IsFlag name value =>
          match formal !! name with
          | None =>
              if decide (name = "help" ∨ name = "h") then inl ErrHelp
              else inl (failf ("flag provided but not defined: -" +:+ name))
          | Some _ =>
              match value with
              | Some v =>
                  let '(fm, ac) := setFlag name v formal actual in
                  parseFlags fm ac rest
              | None =>
                  match rest with
                  | v :: rest' =>
                      let '(fm, ac) := setFlag name v formal actual in
                      parseFlags fm ac rest'
                  | [] => inl (failf ("flag needs an argument: -" +:+ name))
                  end
              end
          end
      end
  end.

Definition Parse (f : FlagSet) (arguments : list string)
    : ParseErr + FlagSet :=
  parseFlags (formal f) (actual f) arguments.

(** [VisitAll] visits the defined flags in lexicographical order of name. *)
Definition name_le (a b : string * string) : Prop :=
  String.leb a.1 b.1 = true.

Global Instance name_le_dec (a b : string * string) : Decision (name_le a b).
Proof. unfold name_le. apply _. Defined.

Definition sortFlags (formal : gmap string string) : list (string * string) :=
  merge_sort name_le (map_to_list formal).

(** [os.Getenv]: an unset variable reads as the empty string. *)
Definition os_Getenv (env : gmap string string) (key : string) : string :=
  default "" (env !! key).

Section Main.

Context {lib : GoLib} (remote : Remote).

Definition usage : string :=
  "Usage of fastly-logging-creds:" +:+ newline
  +:+ newline
  +:+ PrintDefaults
  +:+ newline
  +:+ "Note, AWS_SECRET_KEY and FASTLY_KEY must be provided as env vars."
  +:+ newline.

(** [flag.CommandLine.Parse]: the command line's flag set exits on error,
    with status 0 for [-h] and [-help] and 2 otherwise, after writing the
    error and the usage to standard error. *)
Definition CommandLine_Parse (f : FlagSet) (arguments : list string)
    : Proc FlagSet :=
  match Parse f arguments with
  | inr f' => fun w => (w, Done f')
  | inl ErrHelp => fun w => (eprint usage w, Exit 0)
  | inl (failf msg) =>
      fun w => (eprint usage (eprint (msg +:+ newline) w), Exit 2)
  end.

(** The callback of [checkArgs], over the flags in visiting order. *)
Fixpoint checkEach (flags : list (string * string)) : Proc unit :=
  match flags with
  | [] => fun w => (w, Done tt)
  | (name, value) :: rest =>
      if decide (value = "")
      then fun w =>
        (print ("Missing required arg '" +:+ name +:+ "'." +:+ newline) w,
         Exit 1)
      else checkEach rest
  end.

Definition checkArgs (f : FlagSet) : Proc unit :=
  checkEach (sortFlags (formal f)).

Definition main (os_Args : list string) (env : gmap string string)
    : Proc unit :=
  let f := flag_String "serviceID" "" CommandLine in
  let f := flag_String "awsAccessKey" "" f in
  let f := flag_String "loggingName" "s3-logs" f in
  if decide (length os_Args < 2)%nat
  then fun w =>
    (w, Panic ("runtime error: slice bounds out of range [2:"
               +:+ pretty (length os_Args) +:+ "]"))
  else
    run! f := CommandLine_Parse f (drop 2 os_Args) in
    run! _ := checkArgs f in
    let serviceID := flagValue f "serviceID" in
    let awsAccessKey := flagValue f "awsAccessKey" in
    let loggingName := flagValue f "loggingName" in
    let awsSecretKey := os_Getenv env "AWS_SECRET_KEY" in
    let fastlyKey := os_Getenv env "FASTLY_KEY" in
    match os_Args !! 1%nat with
    | None => fun w => (w, Panic "runtime error: index out of range")
    | Some command =>
        if decide (command = "rotate-creds")
        then rotateCreds remote fastlyKey serviceID loggingName
               awsAccessKey awsSecretKey
        else if decide (command = "describe")
        then describeLogs remote fastlyKey serviceID
        else if decide (command = "delete")
        then deleteLogs remote fastlyKey serviceID
        else if decide (command = "create")
        then createLogs remote fastlyKey serviceID awsAccessKey awsSecretKey
        else check (Some (errors_New
               "Must provide valid command. See -h for more info."))
    end.

End Main.

(** ** A test double

    A library and a remote to run the program on: the remote answers 200 to
    everything, with a body that depends on the request only; the decoders
    know these bodies. *)

(** A form encoder for the test double: the fields in key order, without
    escaping. *)
Definition joinPairs (l : list (string * list string)) : string :=
  String.concat "&"
    (map (fun kv => kv.1 +:+ "=" +:+ String.concat "," kv.2) l).

Definition key_le (a b : string * list string) : Prop :=
  String.leb a.1 b.1 = true.

Global Instance key_le_dec (a b : string * list string)
  : Decision (key_le a b).
Proof. unfold key_le. apply _. Defined.

Definition demoVersions : list Version :=
  [mkVersion false 4; mkVersion true 5; mkVersion false 3].

Definition demoConfs : list (gmap string string) :=
  [ {[ "name" := "s3-logs"; "bucket_name" := "aws-frontend-logs" ]};
    {[ "name" := "old-logs" ]};
    {[ "name" := "spare-logs" ]} ].

Definition demoLib : GoLib := {|
  NewRequest_err := fun _ _ => None;
  Encode := fun m => joinPairs (merge_sort key_le (map_to_list m));
  Unmarshal_Versions := fun body =>
    if String.eqb body "versions" then (demoVersions, None)
    else if String.eqb body "inactive versions"
    then ([mkVersion false 1; mkVersion false 2], None)
    else ([], Some (errors_New "invalid character"));
  Unmarshal_Version := fun body =>
    if String.eqb body "version 6" then (mkVersion false 6, None)
    else (mkVersion false 0, Some (errors_New "invalid character"));
  Unmarshal_confs := fun body =>
    if String.eqb body "endpoints" then (demoConfs, None)
    else ([], Some (errors_New "invalid character"));
  Indent := fun data => data;
  PrintDefaults := "  -awsAccessKey string"
|}.

Definition hasSuffix (suffix s : string) : bool :=
  String.prefix (String.rev suffix) (String.rev s).

(** A remote that accepts everything: it lists the versions (5 is active),
    clones into version 6 and lists three logging endpoints. *)
Definition demoRemote : Remote := fun _ req =>
  if String.eqb (Method req) MethodGet && hasSuffix "/version" (URL req)
  then inr (mkResponse 200 ("versions", None))
  else if hasSuffix "/clone" (URL req)
  then inr (mkResponse 200 ("version 6", None))
  else if String.eqb (Method req) MethodGet
  then inr (mkResponse 200 ("endpoints", None))
  else inr (mkResponse 200 ("{}", None)).

(** A remote that is overloaded: 503 to everything. *)
Definition busyRemote : Remote := fun _ _ =>
  inr (mkResponse 503 ("busy", None)).

(** A remote whose service has no active version. *)
Definition staleRemote : Remote := fun _ _ =>
  inr (mkResponse 200 ("inactive versions", None)).

(** A remote that lists the versions and refuses everything else. *)
Definition cloneFailRemote : Remote := fun _ req =>
  if String.eqb (Method req) MethodGet && hasSuffix "/version" (URL req)
  then inr (mkResponse 200 ("versions", None))
  else inr (mkResponse 503 ("busy", None)).

(** A remote that lists and clones, and refuses everything else. *)
Definition writeFailRemote : Remote := fun _ req =>
  if String.eqb (Method req) MethodGet && hasSuffix "/version" (URL req)
  then inr (mkResponse 200 ("versions", None))
  else if hasSuffix "/clone" (URL req)
  then inr (mkResponse 200 ("version 6", None))
  else inr (mkResponse 503 ("busy", None)).

(** A remote that accepts everything but the deletion of "old-logs". *)
Definition deleteFailRemote : Remote := fun hist req =>
  if String.eqb (Method req) MethodDelete && hasSuffix "/old-logs" (URL req)
  then inr (mkResponse 404 ("not found", None))
  else demoRemote hist req.

Definition w0 : World := mkWorld [] "" "".

Definition demoEnv : gmap string string :=
  {[ "AWS_SECRET_KEY" := "SK"; "FASTLY_KEY" := "fk" ]}.

(** ** Vocabulary of the statements *)

(** The requests the workflow is expected to send. *)
Definition versionsRequest (serviceID fastlyKey : string) : Request :=
  api_request MethodGet
    ("https://api.fastly.com/service/" +:+ serviceID +:+ "/version")
    fastlyKey None.

Definition cloneRequest (serviceID : string) (versionID : Z)
    (fastlyKey : string) : Request :=
  api_request MethodPut
    ("https://api.fastly.com/service/" +:+ serviceID +:+ "/version/"
     +:+ pretty versionID +:+ "/clone")
    fastlyKey None.

Definition activateRequest (serviceID : string) (versionID : Z)
    (fastlyKey : string) : Request :=
  api_request MethodPut
    ("https://api.fastly.com/service/" +:+ serviceID +:+ "/version/"
     +:+ pretty versionID +:+ "/activate")
    fastlyKey None.

Definition deleteRequest (serviceID : string) (versionID : Z)
    (fastlyKey name : string) : Request :=
  api_request MethodDelete
    ("https://api.fastly.com/service/" +:+ serviceID +:+ "/version/"
     +:+ pretty versionID +:+ "/logging/s3/" +:+ name)
    fastlyKey None.

(** The remote accepts request [r] after the requests [hist]: the request
    can be built, and the reply is a readable 200. *)
Definition accepted {lib : GoLib} (remote : Remote) (hist : list Request)
    (r : Request) : Prop :=
  NewRequest_err (Method r) (URL r) = None
  ∧ ∃ resp body, remote hist r = inr resp
                 ∧ StatusCode resp = 200 ∧ ReadAll resp = (body, None).

(** The world [w] after the requests [reqs] were sent in order. *)
Definition sendAll (reqs : list Request) (w : World) : World :=
  mkWorld (trace w ++ reqs) (stdout w) (stderr w).

(** The four sub-commands of [main], each with the closure it hands to
    [updateService]. *)
Inductive Strategy :=
| RotateCreds (loggingName awsAccessKey awsSecretKey : string)
| Describe
| Delete
| Create (awsAccessKey awsSecretKey : string).

Definition mutation {lib : GoLib} (remote : Remote)
    (fastlyKey serviceID : string) (s : Strategy) : Z -> IO error :=
  match s with
  | RotateCreds loggingName awsAccessKey awsSecretKey =>
      rotateCreds_fn remote fastlyKey serviceID loggingName awsAccessKey
        awsSecretKey
  | Describe => describeLogs_fn remote fastlyKey serviceID
  | Delete => deleteLogs_fn remote fastlyKey serviceID
  | Create awsAccessKey awsSecretKey =>
      createLogs_fn remote fastlyKey serviceID awsAccessKey awsSecretKey
  end.

(** A run of [updateService] activated version [nv] after the mutation left
    the world [w3]: the activation request is the one request sent after
    it. *)
Definition activated {lib : GoLib} (remote : Remote)
    (fastlyKey serviceID : string) (fn : Z -> IO error) (w w3 : World)
    (nv : Z) : Prop :=
  trace (updateService remote fastlyKey serviceID fn w).1
  = (trace w3 ++ [activateRequest serviceID nv fastlyKey])%list.

(** The activation rule as the specification words it: after a successful
    clone, the draft is activated exactly when the mutation succeeded and is
    not the describe strategy. *)
Definition activation_rule_as_specified {lib : GoLib} (remote : Remote)
    (fastlyKey serviceID : string) (s : Strategy) (w : World) : Prop :=
  ∀ w1 v w2 nv w3 e,
    getActiveService remote serviceID fastlyKey w = (w1, (v, None)) →
    cloneService remote serviceID v fastlyKey w1 = (w2, (nv, None)) →
    mutation remote fastlyKey serviceID s nv w2 = (w3, e) →
    (activated remote fastlyKey serviceID
       (mutation remote fastlyKey serviceID s) w w3 nv
     ↔ e = None ∧ s ≠ Describe).

(** The flags [main] defines, before the command line is parsed. *)
Definition mainFlags : FlagSet :=
  flag_String "loggingName" "s3-logs"
    (flag_String "awsAccessKey" ""
       (flag_String "serviceID" "" CommandLine)).

(** The rule on missing inputs as the specification words it: when the
    flags parse and one of the three flags was not given, or one of the two
    environment variables is not set, the program prints a message and exits
    with a non-zero status without having sent anything. *)
Definition missing_input_rule_as_specified {lib : GoLib} (remote : Remote)
    (os_Args : list string) (env : gmap string string) (w : World) : Prop :=
  ∀ fs, Parse mainFlags (drop 2 os_Args) = inr fs →
    "serviceID" ∉ actual fs ∨ "loggingName" ∉ actual fs
    ∨ "awsAccessKey" ∉ actual fs
    ∨ env !! "AWS_SECRET_KEY" = None ∨ env !! "FASTLY_KEY" = None →
    ∃ code msg, code ≠ 0
      ∧ main remote os_Args env w = (print msg w, Exit code).

(** A request carries no body, or a form whose secret key is the value of
    [AWS_SECRET_KEY] in the environment. *)
Definition secret_from_env {lib : GoLib} (env : gmap string string)
    (r : Request) : Prop :=
  Body r = None
  ∨ ∃ form : gmap string (list string),
      Body r = Some (Encode form)
      ∧ form !! "secret_key" = Some [os_Getenv env "AWS_SECRET_KEY"].

(** Every request a computation sends satisfies [Q], when those sent before
    it did. *)
Definition keeps (Q : Request -> Prop) {A} (m : IO A) : Prop :=
  ∀ w, Forall Q (trace w) → Forall Q (trace (m w).1).

Definition pkeeps (Q : Request -> Prop) {A} (m : Proc A) : Prop :=
  ∀ w, Forall Q (trace w) → Forall Q (trace (m w).1).

(** ** More test doubles *)

(** A remote that cannot be reached. *)
Definition downRemote : Remote := fun _ _ =>
  inl (errors_New "dial tcp: connection refused").

(** A remote whose 200 reply breaks off while the body is read. *)
Definition truncatedRemote : Remote := fun _ _ =>
  inr (mkResponse 200 ("vers", Some (errors_New "unexpected EOF"))).

(** A control character somewhere in the string. *)
Fixpoint hasCtl (s : string) : bool :=
  match s with
  | EmptyString => false
  | String c r => (nat_of_ascii c <? 32)%nat || hasCtl r
  end.

(** The test library, with a [http.NewRequest] that rejects a URL holding a
    control character. *)
Definition strictLib : GoLib := {|
  NewRequest_err := fun _ url =>
    if hasCtl url
    then Some (errors_New "net/url: invalid control character in URL")
    else None;
  Encode := @Encode demoLib;
  Unmarshal_Versions := @Unmarshal_Versions demoLib;
  Unmarshal_Version := @Unmarshal_Version demoLib;
  Unmarshal_confs := @Unmarshal_confs demoLib;
  Indent := @Indent demoLib;
  PrintDefaults := @PrintDefaults demoLib
|}.

(** The test library, knowing one more version list: two active entries. *)
Definition twoActiveLib : GoLib := {|
  NewRequest_err := @NewRequest_err demoLib;
  Encode := @Encode demoLib;
  Unmarshal_Versions := fun body =>
    if String.eqb body "two active versions"
    then ([mkVersion false 1; mkVersion true 2; mkVersion true 7], None)
    else @Unmarshal_Versions demoLib body;
  Unmarshal_Version := @Unmarshal_Version demoLib;
  Unmarshal_confs := @Unmarshal_confs demoLib;
  Indent := @Indent demoLib;
  PrintDefaults := @PrintDefaults demoLib
|}.

(** A remote whose service has two active versions. *)
Definition twoActiveRemote : Remote := fun _ _ =>
  inr (mkResponse 200 ("two active versions", None)).

(** The request for the logging endpoints of a version. *)
Definition logsRequest (serviceID : string) (versionID : Z)
    (fastlyKey : string) : Request :=
  api_request MethodGet
    ("https://api.fastly.com/service/" +:+ serviceID +:+ "/version/"
     +:+ pretty versionID +:+ "/logging/s3")
    fastlyKey None.

(** The test library, with a decoder for endpoints that fails. *)
Definition noConfsLib : GoLib := {|
  NewRequest_err := @NewRequest_err demoLib;
  Encode := @Encode demoLib;
  Unmarshal_Versions := @Unmarshal_Versions demoLib;
  Unmarshal_Version := @Unmarshal_Version demoLib;
  Unmarshal_confs := fun _ =>
    (demoConfs,
     Some (errors_New "json: cannot unmarshal number into Go value of type string"));
  Indent := @Indent demoLib;
  PrintDefaults := @PrintDefaults demoLib
|}.

(** The sub-command [main] dispatches on, as the strategy it runs: the
    endpoint name and the access key come from the flags, the secret key
    from the environment. *)
Definition strategyOf (command : string) (f : FlagSet)
    (env : gmap string string) : option Strategy :=
  if decide (command = "rotate-creds")
  then Some (RotateCreds (flagValue f "loggingName")
               (flagValue f "awsAccessKey") (os_Getenv env "AWS_SECRET_KEY"))
  else if decide (command = "describe") then Some Describe
  else if decide (command = "delete") then Some Delete
  else if decide (command = "create")
  then Some (Create (flagValue f "awsAccessKey")
               (os_Getenv env "AWS_SECRET_KEY"))
  else None.

(** The flags after parsing [-serviceID=abc -awsAccessKey=AK]. *)
Definition demoFlags : FlagSet :=
  mkFlagSet
    (<["awsAccessKey" := "AK"]> (<["serviceID" := "abc"]> (formal mainFlags)))
    {[ "awsAccessKey"; "serviceID" ]} [].

(** ** The earlier programs

    [main.go] opens with an earlier program (its first document, also the
    [main] of the second unnamed part), and the first unnamed part holds the
    one between it and the current program.  Both check their five inputs
    with [checkArg]; they share [usage] and [check] with the current
    program, and the second also [getActiveService], [cloneService],
    [activateService] and [fastlyHTTP]. *)

(** [checkArg(name, value)] *)
Definition checkArg (name value : string) : Proc unit :=
  if decide (value = "")
  then fun w =>
    (print ("Missing required arg '" +:+ name +:+ "'." +:+ newline) w, Exit 1)
  else fun w => (w, Done tt).

(** The flags both earlier programs define: all three default to the empty
    string. *)
Definition earlierFlags : FlagSet :=
  flag_String "awsAccessKey" ""
    (flag_String "loggingName" ""
       (flag_String "serviceID" "" CommandLine)).

(** [flag.Parse()] parses [os.Args[1:]]. *)
Definition flag_Parse {lib : GoLib} (f : FlagSet) (os_Args : list string)
    : Proc FlagSet :=
  if decide (length os_Args < 1)%nat
  then fun w =>
    (w, Panic ("runtime error: slice bounds out of range [1:"
               +:+ pretty (length os_Args) +:+ "]"))
  else CommandLine_Parse f (drop 1 os_Args).

(** The first program: one PUT of the credentials to version 1. *)
Module V1.

Section Program.

Context {lib : GoLib} (remote : Remote).

(** [url.URL{Scheme, Host, Path}.String()] *)
Variable URL_String : string -> string -> string -> string.

Definition updateRequest (serviceID loggingName awsAccessKey awsSecretKey
    fastlyKey : string) : Request :=
  let reqURL :=
    URL_String "https" "api.fastly.com"
      ("/service/" +:+ serviceID +:+ "/version/1/logging/s3/"
       +:+ loggingName) in
  let form : gmap string (list string) :=
    {[ "access_key" := [awsAccessKey]; "secret_key" := [awsSecretKey] ]} in
  mkRequest MethodPut reqURL
    [("Fastly-Key", fastlyKey);
     ("Content-Type", "application/x-www-form-urlencoded");
     ("Accept", "application/json")]
    (Some (Encode form)).

Definition main (os_Args : list string) (env : gmap string string)
    : Proc unit :=
  let f := flag_String "serviceID" "" CommandLine in
  let f := flag_String "loggingName" "" f in
  let f := flag_String "awsAccessKey" "" f in
  run! f := flag_Parse f os_Args in
  let serviceID := flagValue f "serviceID" in
  let loggingName := flagValue f "loggingName" in
  let awsAccessKey := flagValue f "awsAccessKey" in
  let awsSecretKey := os_Getenv env "AWS_SECRET_KEY" in
  let fastlyKey := os_Getenv env "FASTLY_KEY" in
  run! _ := checkArg "serviceID" serviceID in
  run! _ := checkArg "loggingName" loggingName in
  run! _ := checkArg "awsAccessKey" awsAccessKey in
  run! _ := checkArg "AWS_SECRET_KEY" awsSecretKey in
  run! _ := checkArg "FASTLY_KEY" fastlyKey in
  let req := updateRequest serviceID loggingName awsAccessKey awsSecretKey
               fastlyKey in
  run! _ := check (NewRequest_err MethodPut (URL req)) in
  run! r := lift (client_Do remote req) in
  match r with
  | inl e => check (Some e)
  | inr resp =>
      if decide (StatusCode resp ≠ StatusOK)
      then check (Some (errors_New
             ("Update request failed: " +:+ pretty (StatusCode resp)
              +:+ ", " +:+ (ReadAll resp).1)))
      else fun w => (w, Done tt)
  end.

End Program.

End V1.

(** The second program: the workflow inlined in [main], with an
    [updateLoggingCreds] that sends no body and an activation whose error
    is dropped. *)
Module V0.

Section Program.

Context {lib : GoLib} (remote : Remote).

Definition updateLoggingCreds (serviceID : string) (versionID : Z)
    (loggingName fastlyKey : string) : IO error :=
  let reqURL := "/service/" +:+ serviceID +:+ "/version/"
                +:+ pretty versionID +:+ "/logging/s3/" +:+ loggingName in
  let! (_, e) := fastlyHTTP remote reqURL MethodPut fastlyKey None in
  ret e.

(** The builtin [println] of an integer: to standard error. *)
Definition println (n : Z) : Proc unit :=
  fun w => (eprint (pretty n +:+ newline) w, Done tt).

Definition main (os_Args : list string) (env : gmap string string)
    : Proc unit :=
  let f := flag_String "serviceID" "" CommandLine in
  let f := flag_String "loggingName" "" f in
  let f := flag_String "awsAccessKey" "" f in
  run! f := flag_Parse f os_Args in
  let serviceID := flagValue f "serviceID" in
  let loggingName := flagValue f "loggingName" in
  let awsAccessKey := flagValue f "awsAccessKey" in
  let awsSecretKey := os_Getenv env "AWS_SECRET_KEY" in
  let fastlyKey := os_Getenv env "FASTLY_KEY" in
  run! _ := checkArg "serviceID" serviceID in
  run! _ := checkArg "loggingName" loggingName in
  run! _ := checkArg "awsAccessKey" awsAccessKey in
  run! _ := checkArg "AWS_SECRET_KEY" awsSecretKey in
  run! _ := checkArg "FASTLY_KEY" fastlyKey in
  run! (activeVersion, e) := lift (getActiveService remote serviceID
                                     fastlyKey) in
  run! _ := check e in
  run! _ := println activeVersion in
  run! (newVersion, e) := lift (cloneService remote serviceID activeVersion
                                  fastlyKey) in
  run! _ := check e in
  run! _ := println newVersion in
  run! e := lift (updateLoggingCreds serviceID newVersion loggingName
                    fastlyKey) in
  run! _ := check e in
  run! _ := lift (activateService remote serviceID newVersion fastlyKey) in
  fun w => (w, Done tt).

End Program.

End V0.

(** [URL.String] for the test double: no escaping. *)
Definition plainURL (scheme host path : string) : string :=
  scheme +:+ "://" +:+ host +:+ path.

(** The inputs the earlier programs check, in the order they check them. *)
Definition checkedInputs (f : FlagSet) (env : gmap string string)
    : list (string * string) :=
  [("serviceID", flagValue f "serviceID");
   ("loggingName", flagValue f "loggingName");
   ("awsAccessKey", flagValue f "awsAccessKey");
   ("AWS_SECRET_KEY", os_Getenv env "AWS_SECRET_KEY");
   ("FASTLY_KEY", os_Getenv env "FASTLY_KEY")].

(** [checkArg] on each input in turn, then the rest of the program. *)
Fixpoint checkInOrder (inputs : list (string * string)) (rest : Proc unit)
    : Proc unit :=
  match inputs with
  | [] => rest
  | (name, value) :: inputs' =>
      run! _ := checkArg name value in checkInOrder inputs' rest
  end.

(** A remote that accepts everything but the activation. *)
Definition activateFailRemote : Remote := fun hist req =>
  if hasSuffix "/activate" (URL req)
  then inr (mkResponse 503 ("busy", None))
  else demoRemote hist req.

(** The command line and flags of the earlier programs' runs. *)
Definition earlierArgs : list string :=
  ["fastly-logging-creds"; "-serviceID=abc"; "-loggingName"; "s3-logs";
   "-awsAccessKey=AK"].

Definition earlierDemoFlags : FlagSet :=
  mkFlagSet
    (<["awsAccessKey" := "AK"]>
       (<["loggingName" := "s3-logs"]>
          (<["serviceID" := "abc"]> (formal earlierFlags))))
    {[ "awsAccessKey"; "loggingName"; "serviceID" ]} [].

(** * Properties *)

Ltac unfold_io := unfold bind, ret, client_Do in *; simpl in *.

Section RequestHelper.

Context {lib : GoLib} (remote : Remote).

(** The request [fastlyHTTP] builds, and the states it can leave. *)
Lemma fastlyHTTP_cases path method fastlyKey reqBody w :
  let reqURL := "https://api.fastly.com" +:+ path in
  let req := api_request method reqURL fastlyKey reqBody in
  let r := fastlyHTTP remote path method fastlyKey reqBody w in
  (∃ e, NewRequest_err method reqURL = Some e ∧ r = (w, ("", Some e)))
  ∨ (NewRequest_err method reqURL = None ∧ r.1 = send req w).
Proof.
  intros reqURL req r. subst r. unfold fastlyHTTP. fold reqURL. fold req.
  destruct (NewRequest_err method reqURL) as [e|] eqn:E.
  - left. exists e. split; reflexivity.
  - right. split; [reflexivity|]. unfold_io.
    destruct (remote (trace w) req) as [e|resp]; [reflexivity|].
    destruct (ReadAll resp) as [body [e|]]; [reflexivity|].
    case_decide; reflexivity.
Qed.

(** The result of a call whose request is built and whose reply is read. *)
Lemma fastlyHTTP_reply path method fastlyKey reqBody w resp body :
  let reqURL := "https://api.fastly.com" +:+ path in
  let req := api_request method reqURL fastlyKey reqBody in
  NewRequest_err method reqURL = None →
  remote (trace w) req = inr resp →
  ReadAll resp = (body, None) →
  fastlyHTTP remote path method fastlyKey reqBody w
  = (send req w,
     if decide (StatusCode resp = 200) then (body, None)
     else ("", Some (api_failed reqURL (StatusCode resp) body))).
Proof.
  intros reqURL req Hn Hr Hb. unfold fastlyHTTP. fold reqURL. fold req.
  rewrite Hn. unfold_io. rewrite Hr, Hb. unfold StatusOK.
  destruct (decide (StatusCode resp = 200)) as [Hs|Hs].
  - rewrite decide_False by (intros Hne; exact (Hne Hs)). reflexivity.
  - rewrite decide_True by exact Hs. reflexivity.
Qed.

(** C5: a reply whose status is not 200 becomes an error whose message
    carries the status and the body, whatever the status is; a 200 reply
    gives the body; and a call returns without error only on a 200 reply,
    with that reply's body. *)
Theorem fastlyHTTP_status path method fastlyKey reqBody w :
  let reqURL := "https://api.fastly.com" +:+ path in
  let req := api_request method reqURL fastlyKey reqBody in
  (∀ resp body,
      NewRequest_err method reqURL = None →
      remote (trace w) req = inr resp →
      ReadAll resp = (body, None) →
      StatusCode resp ≠ 200 →
      fastlyHTTP remote path method fastlyKey reqBody w
      = (send req w,
         ("", Some (errors_New
                 ("Fastly API request for '" +:+ reqURL +:+ "' failed: "
                  +:+ pretty (StatusCode resp) +:+ ", " +:+ body)))))
  ∧ (∀ resp body,
      NewRequest_err method reqURL = None →
      remote (trace w) req = inr resp →
      ReadAll resp = (body, None) →
      StatusCode resp = 200 →
      fastlyHTTP remote path method fastlyKey reqBody w
      = (send req w, (body, None)))
  ∧ (∀ w' body,
      fastlyHTTP remote path method fastlyKey reqBody w = (w', (body, None)) →
      ∃ resp, remote (trace w) req = inr resp
              ∧ StatusCode resp = 200
              ∧ ReadAll resp = (body, None)
              ∧ w' = send req w).
Proof.
  intros reqURL req. repeat split.
  - intros resp body Hn Hr Hb Hs.
    rewrite (fastlyHTTP_reply path method fastlyKey reqBody w resp body
               Hn Hr Hb).
    rewrite decide_False by exact Hs. reflexivity.
  - intros resp body Hn Hr Hb Hs.
    rewrite (fastlyHTTP_reply path method fastlyKey reqBody w resp body
               Hn Hr Hb).
    rewrite decide_True by exact Hs. reflexivity.
  - intros w' body. unfold fastlyHTTP. fold reqURL. fold req. destruct (NewRequest_err method reqURL); [discriminate|].
    unfold_io. destruct (remote (trace w) req) as [e|resp]; [discriminate|].
    destruct (ReadAll resp) as [b [e|]] eqn:Hb; [discriminate|].
    case_decide as Hs; [discriminate|]. intros [= <- <-].
    exists resp. unfold StatusOK in Hs. repeat split; try done.
Qed.

End RequestHelper.

Lemma fastlyHTTP_status_witness :
  fastlyHTTP (lib := demoLib) busyRemote "/service/abc/version" MethodGet
    "fk" None w0
  = (send (api_request MethodGet "https://api.fastly.com/service/abc/version"
             "fk" None) w0,
     ("", Some (errors_New
        "Fastly API request for 'https://api.fastly.com/service/abc/version' failed: 503, busy")))
  ∧ fastlyHTTP (lib := demoLib) demoRemote "/service/abc/version" MethodGet
      "fk" None w0
    = (send (api_request MethodGet "https://api.fastly.com/service/abc/version"
               "fk" None) w0,
       ("versions", None))
  ∧ ∃ resp, demoRemote [] (api_request MethodGet
                "https://api.fastly.com/service/abc/version" "fk" None)
            = inr resp
            ∧ StatusCode resp = 200 ∧ ReadAll resp = ("versions", None).
Proof.
  destruct (fastlyHTTP_status (lib := demoLib) busyRemote
              "/service/abc/version" MethodGet "fk" None w0) as [H1 _].
  destruct (fastlyHTTP_status (lib := demoLib) demoRemote
              "/service/abc/version" MethodGet "fk" None w0) as [_ [H2 H3]].
  split; [|split].
  - apply (H1 (mkResponse 503 ("busy", None)) "busy");
      [reflexivity | reflexivity | reflexivity | discriminate].
  - apply (H2 (mkResponse 200 ("versions", None)) "versions"); reflexivity.
  - destruct (H3 _ "versions" eq_refl) as (resp & Hr & Hs & Hb & _).
    exists resp. repeat split; assumption.
Defined.

Section ActiveVersion.

Context {lib : GoLib} (remote : Remote).

Lemma firstActive_filter (data : list Version) :
  firstActive data
  = match List.filter Active data with
    | [] => (0, Some (errors_New "No active version found."))
    | v :: _ => (Number v, None)
    end.
Proof.
  induction data as [|version rest IH]; simpl; [reflexivity|].
  destruct (Active version); [reflexivity | exact IH].
Qed.

(** C2: when the version list decodes to [data], [getActiveService] returns
    the number of the only active entry when there is exactly one, and the
    error "No active version found." when there is none. *)
Theorem getActiveService_spec serviceID fastlyKey w w' body data :
  fastlyHTTP remote ("/service/" +:+ serviceID +:+ "/version") MethodGet
    fastlyKey None w = (w', (body, None)) →
  Unmarshal_Versions body = (data, None) →
  (∀ v, List.filter Active data = [v] →
        getActiveService remote serviceID fastlyKey w
        = (w', (Number v, None)))
  ∧ (List.filter Active data = [] →
        getActiveService remote serviceID fastlyKey w
        = (w', (0, Some (errors_New "No active version found.")))).
Proof.
  intros Hhttp Hjson. unfold getActiveService, bind.
  rewrite Hhttp, Hjson. unfold ret. rewrite firstActive_filter.
  split; [intros v Hv | intros Hv]; rewrite Hv; reflexivity.
Qed.

End ActiveVersion.

Lemma getActiveService_spec_witness :
  getActiveService (lib := demoLib) demoRemote "abc" "fk" w0
  = (send (api_request MethodGet "https://api.fastly.com/service/abc/version"
             "fk" None) w0, (5, None))
  ∧ getActiveService (lib := demoLib) staleRemote "abc" "fk" w0
    = (send (api_request MethodGet "https://api.fastly.com/service/abc/version"
               "fk" None) w0,
       (0, Some (errors_New "No active version found."))).
Proof.
  split.
  - apply (proj1 (getActiveService_spec (lib := demoLib) demoRemote "abc" "fk"
                    w0 _ "versions" demoVersions eq_refl eq_refl)
             (mkVersion true 5)).
    reflexivity.
  - apply (proj2 (getActiveService_spec (lib := demoLib) staleRemote "abc"
                    "fk" w0 _ "inactive versions"
                    [mkVersion false 1; mkVersion false 2] eq_refl eq_refl)).
    reflexivity.
Defined.

Section Workflow.

Context {lib : GoLib} (remote : Remote).

(** The states [activateService] can leave: nothing sent when the request
    cannot be built, the activation request sent otherwise. *)
Lemma activateService_cases serviceID versionID fastlyKey w :
  let req := activateRequest serviceID versionID fastlyKey in
  let r := activateService remote serviceID versionID fastlyKey w in
  (∃ e, NewRequest_err MethodPut (URL req) = Some e ∧ r = (w, Some e))
  ∨ (NewRequest_err MethodPut (URL req) = None ∧ r.1 = send req w).
Proof.
  intros req r. subst r. unfold activateService, bind.
  destruct (fastlyHTTP_cases remote
              ("/service/" +:+ serviceID +:+ "/version/"
               +:+ pretty versionID +:+ "/activate")
              MethodPut fastlyKey None w) as [(e & He & Hr) | (He & Hr)].
  - left. exists e. split; [exact He|]. rewrite Hr. reflexivity.
  - right. split; [exact He|].
    destruct (fastlyHTTP _ _ _ _ _ w) as [w' [b e]]. exact Hr.
Qed.

(** C3: whichever step fails first (finding the active version, cloning it,
    or the mutation), [updateService] returns that step's error and leaves
    the world as that step left it: no later step runs, so no activation. *)
Theorem updateService_first_error fastlyKey serviceID
    (fn : Z -> IO error) w :
  (∀ w1 n e,
      getActiveService remote serviceID fastlyKey w = (w1, (n, Some e)) →
      updateService remote fastlyKey serviceID fn w = (w1, Some e))
  ∧ (∀ w1 v w2 n e,
      getActiveService remote serviceID fastlyKey w = (w1, (v, None)) →
      cloneService remote serviceID v fastlyKey w1 = (w2, (n, Some e)) →
      updateService remote fastlyKey serviceID fn w = (w2, Some e))
  ∧ (∀ w1 v w2 nv w3 e,
      getActiveService remote serviceID fastlyKey w = (w1, (v, None)) →
      cloneService remote serviceID v fastlyKey w1 = (w2, (nv, None)) →
      fn nv w2 = (w3, Some e) →
      updateService remote fastlyKey serviceID fn w = (w3, Some e)).
Proof.
  unfold updateService, bind, ret. repeat split.
  - intros w1 n e H1. rewrite H1. reflexivity.
  - intros w1 v w2 n e H1 H2. rewrite H1, H2. reflexivity.
  - intros w1 v w2 nv w3 e H1 H2 H3. rewrite H1, H2, H3. reflexivity.
Qed.

(** The workflow once the clone has succeeded. *)
Lemma updateService_after_clone fastlyKey serviceID (fn : Z -> IO error)
    w w1 v w2 nv w3 e :
  getActiveService remote serviceID fastlyKey w = (w1, (v, None)) →
  cloneService remote serviceID v fastlyKey w1 = (w2, (nv, None)) →
  fn nv w2 = (w3, e) →
  updateService remote fastlyKey serviceID fn w
  = match e with
    | Some _ => (w3, e)
    | None => activateService remote serviceID nv fastlyKey w3
    end.
Proof.
  intros H1 H2 H3. unfold updateService, bind, ret.
  rewrite H1, H2, H3. destruct e; reflexivity.
Qed.

Lemma app_one_neq {A} (l : list A) (x : A) : l ≠ (l ++ [x])%list.
Proof.
  intros H. apply (f_equal (@length A)) in H.
  rewrite length_app in H. simpl in H. lia.
Qed.

(** C1, as the code has it: after a successful clone, [updateService] goes
    on to [activateService] on the cloned version exactly when the mutation
    returned no error, whatever the mutation is (describe included); when
    the activation request can be built, it is sent if and only if the
    mutation succeeded. *)
Theorem updateService_activates_iff fastlyKey serviceID
    (fn : Z -> IO error) w w1 v w2 nv w3 e :
  getActiveService remote serviceID fastlyKey w = (w1, (v, None)) →
  cloneService remote serviceID v fastlyKey w1 = (w2, (nv, None)) →
  fn nv w2 = (w3, e) →
  (e = None →
     updateService remote fastlyKey serviceID fn w
     = activateService remote serviceID nv fastlyKey w3)
  ∧ (e ≠ None →
     updateService remote fastlyKey serviceID fn w = (w3, e))
  ∧ (NewRequest_err MethodPut (URL (activateRequest serviceID nv fastlyKey))
     = None →
     (activated remote fastlyKey serviceID fn w w3 nv ↔ e = None)).
Proof.
  intros H1 H2 H3. unfold activated.
  rewrite (updateService_after_clone _ _ _ _ _ _ _ _ _ _ H1 H2 H3).
  repeat split.
  - intros ->. reflexivity.
  - destruct e; [reflexivity | congruence].
  - destruct e; [|reflexivity]. simpl. intros Heq.
    exfalso. exact (app_one_neq _ _ Heq).
  - intros ->.
    destruct (activateService_cases serviceID nv fastlyKey w3)
      as [(e & He & _) | (_ & Hr)].
    + rewrite He in H. discriminate.
    + rewrite Hr. reflexivity.
Qed.

End Workflow.

Lemma updateService_first_error_witness :
  let fn := rotateCreds_fn (lib := demoLib) writeFailRemote "fk" "abc"
              "s3-logs" "AK" "SK" in
  updateService (lib := demoLib) staleRemote "fk" "abc" fn w0
  = (send (versionsRequest "abc" "fk") w0,
     Some (errors_New "No active version found."))
  ∧ updateService (lib := demoLib) cloneFailRemote "fk" "abc" fn w0
    = (send (cloneRequest "abc" 5 "fk") (send (versionsRequest "abc" "fk") w0),
       Some (errors_New
         "Fastly API request for 'https://api.fastly.com/service/abc/version/5/clone' failed: 503, busy"))
  ∧ updateService (lib := demoLib) writeFailRemote "fk" "abc" fn w0
    = (mkWorld
         [versionsRequest "abc" "fk"; cloneRequest "abc" 5 "fk";
          api_request MethodPut
            "https://api.fastly.com/service/abc/version/6/logging/s3/s3-logs"
            "fk" (Some "access_key=AK&secret_key=SK")] "" "",
       Some (errors_New
         "Fastly API request for 'https://api.fastly.com/service/abc/version/6/logging/s3/s3-logs' failed: 503, busy")).
Proof.
  intros fn. split; [|split].
  - eapply (proj1 (updateService_first_error (lib := demoLib) staleRemote
                     "fk" "abc" fn w0)).
    vm_compute. reflexivity.
  - eapply (proj1 (proj2 (updateService_first_error (lib := demoLib)
                            cloneFailRemote "fk" "abc" fn w0))).
    + vm_compute. reflexivity.
    + vm_compute. reflexivity.
  - eapply (proj2 (proj2 (updateService_first_error (lib := demoLib)
                            writeFailRemote "fk" "abc" fn w0))).
    + vm_compute. reflexivity.
    + vm_compute. reflexivity.
    + vm_compute. reflexivity.
Defined.

Lemma updateService_activates_iff_witness :
  let fn := describeLogs_fn (lib := demoLib) demoRemote "fk" "abc" in
  let w3 := mkWorld
      [versionsRequest "abc" "fk"; cloneRequest "abc" 5 "fk";
       api_request MethodGet
         "https://api.fastly.com/service/abc/version/6/logging/s3" "fk" None]
      ("endpoints" +:+ newline) "" in
  fn 6 (send (cloneRequest "abc" 5 "fk") (send (versionsRequest "abc" "fk") w0))
  = (w3, None)
  ∧ updateService (lib := demoLib) demoRemote "fk" "abc" fn w0
    = activateService (lib := demoLib) demoRemote "abc" 6 "fk" w3
  ∧ activated (lib := demoLib) demoRemote "fk" "abc" fn w0 w3 6.
Proof.
  intros fn w3.
  assert (H1 : getActiveService (lib := demoLib) demoRemote "abc" "fk" w0
               = (send (versionsRequest "abc" "fk") w0, (5, None)))
    by (vm_compute; reflexivity).
  assert (H2 : cloneService (lib := demoLib) demoRemote "abc" 5 "fk"
                 (send (versionsRequest "abc" "fk") w0)
               = (send (cloneRequest "abc" 5 "fk")
                    (send (versionsRequest "abc" "fk") w0), (6, None)))
    by (vm_compute; reflexivity).
  assert (H3 : fn 6 (send (cloneRequest "abc" 5 "fk")
                       (send (versionsRequest "abc" "fk") w0))
               = (w3, None))
    by (vm_compute; reflexivity).
  destruct (updateService_activates_iff (lib := demoLib) demoRemote "fk" "abc"
              fn w0 _ _ _ _ _ _ H1 H2 H3) as (Ha & _ & Hb).
  split; [exact H3|]. split; [exact (Ha eq_refl)|].
  apply Hb; reflexivity.
Defined.

(** C1, as the specification words it, fails on the describe strategy: on a
    remote that accepts everything, a describe run succeeds and its last
    request activates the clone it only read from. *)
Lemma describe_activates_clone :
  let r := updateService (lib := demoLib) demoRemote "fk" "abc"
             (mutation (lib := demoLib) demoRemote "fk" "abc" Describe) w0 in
  r.2 = None
  ∧ last (trace r.1) = Some (activateRequest "abc" 6 "fk")
  ∧ ¬ activation_rule_as_specified (lib := demoLib) demoRemote "fk" "abc"
        Describe w0.
Proof.
  split; [vm_compute; reflexivity|]. split; [vm_compute; reflexivity|].
  intros H.
  assert (H1 : getActiveService (lib := demoLib) demoRemote "abc" "fk" w0
               = (send (versionsRequest "abc" "fk") w0, (5, None)))
    by (vm_compute; reflexivity).
  assert (H2 : cloneService (lib := demoLib) demoRemote "abc" 5 "fk"
                 (send (versionsRequest "abc" "fk") w0)
               = (send (cloneRequest "abc" 5 "fk")
                    (send (versionsRequest "abc" "fk") w0), (6, None)))
    by (vm_compute; reflexivity).
  destruct (H _ _ _ _ _ _ H1 H2 eq_refl) as [Hact _].
  destruct Hact as [_ Hne]; [vm_compute; reflexivity|].
  apply Hne. reflexivity.
Qed.

Section Clone.

Context {lib : GoLib} (remote : Remote).

(** C7: the clone request names the version [getActiveService] returned;
    when the remote answers it with 200 and a body that decodes to a
    version other than the one cloned, the mutation runs on the decoded
    number, right after the clone request, and that number differs from the
    cloned one. *)
Theorem updateService_clones_active fastlyKey serviceID
    (fn : Z -> IO error) w w1 v resp body data :
  getActiveService remote serviceID fastlyKey w = (w1, (v, None)) →
  NewRequest_err MethodPut (URL (cloneRequest serviceID v fastlyKey)) = None →
  remote (trace w1) (cloneRequest serviceID v fastlyKey) = inr resp →
  StatusCode resp = 200 →
  ReadAll resp = (body, None) →
  Unmarshal_Version body = (data, None) →
  Number data ≠ v →
  let w2 := send (cloneRequest serviceID v fastlyKey) w1 in
  cloneService remote serviceID v fastlyKey w1 = (w2, (Number data, None))
  ∧ updateService remote fastlyKey serviceID fn w
    = (let (w3, e) := fn (Number data) w2 in
       match e with
       | Some _ => (w3, e)
       | None => activateService remote serviceID (Number data) fastlyKey w3
       end)
  ∧ Number data ≠ v.
Proof.
  intros H1 Hn Hr Hs Hb Hj Hnew w2.
  assert (H2 : cloneService remote serviceID v fastlyKey w1
               = (w2, (Number data, None))).
  { unfold cloneService, bind.
    rewrite (fastlyHTTP_reply remote
               ("/service/" +:+ serviceID +:+ "/version/"
                +:+ pretty v +:+ "/clone") MethodPut fastlyKey None w1
               resp body Hn Hr Hb).
    rewrite decide_True by exact Hs. rewrite Hj. reflexivity. }
  split; [exact H2|]. split; [|exact Hnew].
  destruct (fn (Number data) w2) as [w3 e] eqn:H3.
  exact (updateService_after_clone remote _ _ _ _ _ _ _ _ _ _ H1 H2 H3).
Qed.

End Clone.

Lemma updateService_clones_active_witness :
  let fn := rotateCreds_fn (lib := demoLib) demoRemote "fk" "abc"
              "s3-logs" "AK" "SK" in
  let w2 := send (cloneRequest "abc" 5 "fk")
              (send (versionsRequest "abc" "fk") w0) in
  cloneService (lib := demoLib) demoRemote "abc" 5 "fk"
    (send (versionsRequest "abc" "fk") w0) = (w2, (6, None))
  ∧ updateService (lib := demoLib) demoRemote "fk" "abc" fn w0
    = (let (w3, e) := fn 6 w2 in
       match e with
       | Some _ => (w3, e)
       | None => activateService (lib := demoLib) demoRemote "abc" 6 "fk" w3
       end)
  ∧ 6 ≠ 5.
Proof.
  intros fn w2.
  apply (updateService_clones_active (lib := demoLib) demoRemote "fk" "abc"
           fn w0 (send (versionsRequest "abc" "fk") w0) 5
           (mkResponse 200 ("version 6", None)) "version 6"
           (mkVersion false 6));
    try reflexivity.
  discriminate.
Defined.

Section DeleteAll.

Context {lib : GoLib} (remote : Remote).
Variables (serviceID : string) (versionID : Z) (fastlyKey : string).

Let req := deleteRequest serviceID versionID fastlyKey.
Let path (name : string) : string :=
  "/service/" +:+ serviceID +:+ "/version/" +:+ pretty versionID
  +:+ "/logging/s3/" +:+ name.

Lemma sendAll_nil w : sendAll [] w = w.
Proof. destruct w. unfold sendAll. simpl. rewrite app_nil_r. reflexivity. Qed.

Lemma sendAll_cons r reqs w : sendAll (r :: reqs) w = sendAll reqs (send r w).
Proof. unfold sendAll, send. simpl. rewrite <- app_assoc. reflexivity. Qed.

(** One accepted deletion sends its request and returns no error. *)
Lemma delete_accepted name w :
  accepted remote (trace w) (req name) →
  ∃ body, fastlyHTTP remote (path name) MethodDelete fastlyKey None w
          = (send (req name) w, (body, None)).
Proof.
  intros (Hn & resp & body & Hr & Hs & Hb). exists body.
  rewrite (fastlyHTTP_reply remote (path name) MethodDelete fastlyKey None w
             resp body Hn Hr Hb).
  rewrite decide_True by exact Hs. reflexivity.
Qed.

(** The deletions before the first failure all run. *)
Lemma deleteEach_prefix (pre rest : list (gmap string string)) w :
  (∀ (i : nat) c, pre !! i = Some c →
     accepted remote
       (trace w ++ map req (map conf_name (take i pre)))
       (req (conf_name c))) →
  deleteEach remote serviceID versionID fastlyKey (pre ++ rest) w
  = deleteEach remote serviceID versionID fastlyKey rest
      (sendAll (map req (map conf_name pre)) w).
Proof.
  revert w. induction pre as [|c pre IH]; intros w Hall.
  - simpl. rewrite sendAll_nil. reflexivity.
  - simpl. unfold bind.
    destruct (delete_accepted (conf_name c) w) as [body Hc].
    { specialize (Hall 0%nat c eq_refl). simpl in Hall.
      rewrite app_nil_r in Hall. exact Hall. }
    fold (path (conf_name c)). rewrite Hc. rewrite sendAll_cons.
    apply IH. intros i c' Hi. specialize (Hall (S i) c' Hi).
    simpl in Hall. simpl. rewrite <- app_assoc. exact Hall.
Qed.

(** C4: with [N] endpoints decoded for the draft version, when every
    deletion is accepted exactly the [N] delete requests are sent, one per
    endpoint name in list order, and no error is returned; when the
    deletions before endpoint [c] are accepted and the one for [c] fails with
    [cause], the loop stops there: the result is the world that call left
    (no request for the endpoints after [c]) and the error names [c] and
    carries the message of [cause]. *)
Theorem deleteLogConfiguration_calls w w1 data confs :
  getLogConfiguration remote serviceID versionID fastlyKey w
  = (w1, (data, None)) →
  Unmarshal_confs data = (confs, None) →
  ((∀ (i : nat) c, confs !! i = Some c →
      accepted remote
        (trace w1 ++ map req (map conf_name (take i confs)))
        (req (conf_name c))) →
   deleteLogConfiguration remote serviceID versionID fastlyKey w
   = (sendAll (map req (map conf_name confs)) w1, None))
  ∧ (∀ pre c post w' b cause,
       confs = (pre ++ c :: post)%list →
       (∀ (i : nat) c', pre !! i = Some c' →
          accepted remote
            (trace w1 ++ map req (map conf_name (take i pre)))
            (req (conf_name c'))) →
       fastlyHTTP remote (path (conf_name c)) MethodDelete fastlyKey None
         (sendAll (map req (map conf_name pre)) w1)
       = (w', (b, Some cause)) →
       deleteLogConfiguration remote serviceID versionID fastlyKey w
       = (w', Some (errors_New ("Unable to delete logging service "
                                +:+ conf_name c +:+ ": " +:+ Error cause)))
       ∧ (trace w' = (trace w1 ++ map req (map conf_name pre))%list
          ∨ trace w'
            = (trace w1 ++ map req (map conf_name (pre ++ [c])))%list)).
Proof.
  intros Hget Hjson. unfold deleteLogConfiguration, bind.
  rewrite Hget, Hjson. split.
  - intros Hall.
    rewrite <- (app_nil_r confs) at 1.
    rewrite (deleteEach_prefix confs [] w1 Hall). reflexivity.
  - intros pre c post w' b cause -> Hpre Hfail. split.
    + rewrite (deleteEach_prefix pre (c :: post) w1 Hpre).
      simpl. unfold bind. fold (path (conf_name c)). rewrite Hfail.
      reflexivity.
    + destruct (fastlyHTTP_cases remote (path (conf_name c)) MethodDelete
                  fastlyKey None (sendAll (map req (map conf_name pre)) w1))
        as [(e & _ & Hr) | (_ & Hr)]; rewrite Hfail in Hr.
      * left. injection Hr as -> _. reflexivity.
      * right. simpl in Hr. subst w'. simpl.
        rewrite !map_app, app_assoc. reflexivity.
Qed.

End DeleteAll.

Ltac accept_demo :=
  split; [reflexivity | eexists _, _; repeat split; reflexivity].

Lemma deleteLogConfiguration_calls_witness :
  let get := api_request MethodGet
               "https://api.fastly.com/service/abc/version/6/logging/s3"
               "fk" None in
  deleteLogConfiguration (lib := demoLib) demoRemote "abc" 6 "fk" w0
  = (mkWorld [get; deleteRequest "abc" 6 "fk" "s3-logs";
              deleteRequest "abc" 6 "fk" "old-logs";
              deleteRequest "abc" 6 "fk" "spare-logs"] "" "", None)
  ∧ deleteLogConfiguration (lib := demoLib) deleteFailRemote "abc" 6 "fk" w0
    = (mkWorld [get; deleteRequest "abc" 6 "fk" "s3-logs";
                deleteRequest "abc" 6 "fk" "old-logs"] "" "",
       Some (errors_New
         "Unable to delete logging service old-logs: Fastly API request for 'https://api.fastly.com/service/abc/version/6/logging/s3/old-logs' failed: 404, not found")).
Proof.
  intros get. split.
  - apply (proj1 (deleteLogConfiguration_calls (lib := demoLib) demoRemote
                    "abc" 6 "fk" w0 (send get w0) "endpoints" demoConfs
                    eq_refl eq_refl)).
    intros [|[|[|i]]] c Hc; simpl in Hc; try discriminate;
      injection Hc as <-; accept_demo.
  - refine (proj1 (proj2 (deleteLogConfiguration_calls (lib := demoLib)
                    deleteFailRemote "abc" 6 "fk" w0 (send get w0)
                    "endpoints" demoConfs eq_refl eq_refl)
             [ {[ "name" := "s3-logs"; "bucket_name" := "aws-frontend-logs" ]} ]
             {[ "name" := "old-logs" ]}
             [ {[ "name" := "spare-logs" ]} ]
             (mkWorld [get; deleteRequest "abc" 6 "fk" "s3-logs";
                       deleteRequest "abc" 6 "fk" "old-logs"] "" "")
             ""
             (errors_New
                "Fastly API request for 'https://api.fastly.com/service/abc/version/6/logging/s3/old-logs' failed: 404, not found")
             _ _ _)).
    + reflexivity.
    + intros [|i] c Hc; simpl in Hc; try discriminate.
      injection Hc as <-. accept_demo.
    + vm_compute. reflexivity.
Defined.

Section Create.

Context {lib : GoLib} (remote : Remote).

(** A form is determined by its fields. *)
Lemma form_determined (form : gmap string (list string))
    (fields : list (string * list string)) :
  NoDup fields.*1 →
  dom form = list_to_set fields.*1 →
  Forall (fun kv => form !! kv.1 = Some kv.2) fields →
  form = list_to_map fields.
Proof.
  intros Hnd Hdom Hall. apply map_eq. intros k.
  destruct (list_to_map fields !! k) as [v|] eqn:E.
  - apply elem_of_list_to_map in E; [|exact Hnd].
    rewrite Forall_forall in Hall. exact (Hall (k, v) E).
  - apply not_elem_of_list_to_map in E. apply not_elem_of_dom.
    rewrite Hdom. intros Hin. apply E.
    apply elem_of_list_to_set in Hin. exact Hin.
Qed.

(** C8: the request [createLogConfiguration] sends is a POST to the draft
    version's [logging/s3], with the two headers of the request helper,
    whose body encodes a form with exactly five fields: the fixed name
    "s3-logs", bucket "aws-frontend-logs" and path "/fastly/" followed by
    the service ID, and the caller's access key and secret key.  It is the
    one request sent, unless the request cannot be built, in which case
    nothing is sent. *)
Theorem createLogConfiguration_form serviceID versionID fastlyKey
    awsAccessKey awsSecretKey w :
  ∃ form : gmap string (list string),
    form !! "name" = Some ["s3-logs"]
    ∧ form !! "bucket_name" = Some ["aws-frontend-logs"]
    ∧ form !! "path" = Some ["/fastly/" +:+ serviceID]
    ∧ form !! "access_key" = Some [awsAccessKey]
    ∧ form !! "secret_key" = Some [awsSecretKey]
    ∧ dom form
      = ({[ "name"; "bucket_name"; "path"; "access_key"; "secret_key" ]}
         : gset string)
    ∧ let req := mkRequest MethodPost
                   ("https://api.fastly.com/service/" +:+ serviceID
                    +:+ "/version/" +:+ pretty versionID +:+ "/logging/s3")
                   [("Fastly-Key", fastlyKey); ("Accept", "application/json")]
                   (Some (Encode form)) in
      (NewRequest_err MethodPost (URL req) = None →
       (createLogConfiguration remote serviceID versionID fastlyKey
          awsAccessKey awsSecretKey w).1 = send req w)
      ∧ (∀ e, NewRequest_err MethodPost (URL req) = Some e →
         createLogConfiguration remote serviceID versionID fastlyKey
           awsAccessKey awsSecretKey w = (w, Some e)).
Proof.
  exists ({[ "name" := ["s3-logs"];
             "access_key" := [awsAccessKey];
             "secret_key" := [awsSecretKey];
             "bucket_name" := ["aws-frontend-logs"];
             "path" := ["/fastly/" +:+ serviceID] ]}).
  split; [simplify_map_eq; reflexivity|].
  split; [simplify_map_eq; reflexivity|].
  split; [simplify_map_eq; reflexivity|].
  split; [simplify_map_eq; reflexivity|].
  split; [simplify_map_eq; reflexivity|].
  split; [rewrite !dom_insert_L, dom_singleton_L; set_solver|].
  intros req. unfold createLogConfiguration, bind.
  match goal with
  | |- context [fastlyHTTP remote ?p ?m ?k ?b w] =>
      destruct (fastlyHTTP_cases remote p m k b w)
        as [(e & He & Hr) | (He & Hr)];
      destruct (fastlyHTTP remote p m k b w) as [w' [x e']]
  end; (split; [intros Hn | intros e0 Hn]);
    pose proof (eq_trans (eq_sym He) Hn) as Hc; try discriminate Hc.
  - injection Hc as <-. injection Hr as -> _ ->. reflexivity.
  - exact Hr.
Qed.

End Create.

Lemma createLogConfiguration_form_witness :
  (createLogConfiguration (lib := demoLib) demoRemote "abc" 6 "fk" "AK" "SK"
     w0).1
  = send (mkRequest MethodPost
            "https://api.fastly.com/service/abc/version/6/logging/s3"
            [("Fastly-Key", "fk"); ("Accept", "application/json")]
            (Some "access_key=AK&bucket_name=aws-frontend-logs&name=s3-logs&path=/fastly/abc&secret_key=SK"))
      w0.
Proof.
  destruct (createLogConfiguration_form (lib := demoLib) demoRemote "abc" 6
              "fk" "AK" "SK" w0)
    as (form & Hname & Hbucket & Hpath & Hak & Hsk & Hdom & Hsend & _).
  rewrite (Hsend eq_refl).
  rewrite (form_determined form
             [("name", ["s3-logs"]); ("bucket_name", ["aws-frontend-logs"]);
              ("path", ["/fastly/abc"]); ("access_key", ["AK"]);
              ("secret_key", ["SK"])]).
  - vm_compute. reflexivity.
  - apply (bool_decide_unpack _). vm_compute. reflexivity.
  - rewrite Hdom. vm_compute. reflexivity.
  - repeat constructor; assumption.
Defined.

Section CommandLine.

Context {lib : GoLib} (remote : Remote).

(** C10: started without a sub-command ([os.Args] of length 1), index 1 of
    [os.Args] is out of range and [main] panics on [os.Args[2:]]: it prints
    nothing, in particular not the message about providing a valid command,
    and sends nothing. *)
Theorem main_without_command_panics os_Args env w :
  length os_Args = 1%nat →
  os_Args !! 1%nat = None
  ∧ main remote os_Args env w
    = (w, Panic "runtime error: slice bounds out of range [2:1]").
Proof.
  intros Hlen. split.
  - apply lookup_ge_None. lia.
  - unfold main. rewrite decide_True by lia. rewrite Hlen. reflexivity.
Qed.

(** Parsing only changes the flags it sets: a flag that was not set keeps
    the value it had, and no flag is added or removed. *)
Lemma parseFlags_unset (n : nat) :
  ∀ arguments fm ac fs,
    (length arguments ≤ n)%nat →
    parseFlags fm ac arguments = inr fs →
    ac ⊆ actual fs
    ∧ (∀ name, name ∉ actual fs → formal fs !! name = fm !! name)
    ∧ dom (formal fs) = dom fm.
Proof.
  induction n as [|n IH]; intros arguments fm ac fs Hlen Hp.
  - destruct arguments; [|simpl in Hlen; lia].
    simpl in Hp. injection Hp as <-. simpl. auto.
  - destruct arguments as [|s rest]; simpl in Hp.
    { injection Hp as <-. simpl. auto. }
    simpl in Hlen.
    destruct (scanArg s) as [| | |name value];
      try discriminate; try (injection Hp as <-; simpl; auto; fail).
    destruct (fm !! name) as [old|] eqn:Hold;
      [|case_decide; discriminate].
    assert (Hstep : ∀ v rest', (length rest' ≤ n)%nat →
              parseFlags (<[name:=v]> fm) ({[name]} ∪ ac) rest' = inr fs →
              ac ⊆ actual fs
              ∧ (∀ x, x ∉ actual fs → formal fs !! x = fm !! x)
              ∧ dom (formal fs) = dom fm).
    { intros v rest' Hl Hq.
      destruct (IH rest' _ _ fs Hl Hq) as (Hsub & Hval & Hdom).
      split; [intros x Hx; apply Hsub, elem_of_union; right; exact Hx|].
      split.
      - intros x Hx. rewrite (Hval x Hx).
        apply lookup_insert_ne. intros <-. apply Hx, Hsub, elem_of_union.
        left. apply elem_of_singleton. reflexivity.
      - rewrite Hdom, dom_insert_L.
        assert (Hin : name ∈ dom fm) by (apply elem_of_dom; eauto).
        apply set_eq. intros x. rewrite elem_of_union, elem_of_singleton.
        split; [intros [->|Hx]; [exact Hin | exact Hx] | intros Hx; right;
                exact Hx]. }
    destruct value as [v|].
    + apply (Hstep v rest); [lia | exact Hp].
    + destruct rest as [|v rest']; [discriminate|].
      simpl in Hlen. apply (Hstep v rest'); [lia | exact Hp].
Qed.

(** [checkArgs] stops at a flag whose value is empty, when there is one. *)
Lemma checkEach_missing (flags : list (string * string)) w :
  (∃ name, (name, "") ∈ flags) →
  ∃ name, (name, "") ∈ flags
    ∧ checkEach flags w
      = (print ("Missing required arg '" +:+ name +:+ "'." +:+ newline) w,
         Exit 1).
Proof.
  induction flags as [|[n v] flags IH]; intros [name Hin].
  - inversion Hin.
  - simpl. case_decide as Hv.
    + subst v. exists n. split; [left | reflexivity].
    + destruct IH as (name' & Hin' & Hrun).
      * exists name. apply elem_of_cons in Hin as [Heq|Hin];
          [injection Heq as <- <-; congruence | exact Hin].
      * exists name'. split; [right; exact Hin' | exact Hrun].
Qed.

(** C6, as the code has it: when a sub-command is given and the flags
    parse, a run in which [serviceID] or [awsAccessKey] was not given, or in
    which some flag has the empty value, prints "Missing required arg"
    naming a flag whose value is empty and exits with status 1; nothing has
    been sent. *)
Theorem main_missing_flag os_Args env w fs :
  (2 ≤ length os_Args)%nat →
  Parse mainFlags (drop 2 os_Args) = inr fs →
  "serviceID" ∉ actual fs ∨ "awsAccessKey" ∉ actual fs
  ∨ (∃ name, formal fs !! name = Some "") →
  ∃ name, formal fs !! name = Some ""
    ∧ main remote os_Args env w
      = (print ("Missing required arg '" +:+ name +:+ "'." +:+ newline) w,
         Exit 1)
    ∧ trace (main remote os_Args env w).1 = trace w.
Proof.
  intros Hlen Hparse Hmiss.
  assert (Hempty : ∃ name, formal fs !! name = Some "").
  { destruct (parseFlags_unset _ _ _ _ _ (Nat.le_refl _) Hparse)
      as (_ & Hval & _).
    destruct Hmiss as [H | [H | H]]; [| |exact H].
    - exists "serviceID". rewrite (Hval _ H). reflexivity.
    - exists "awsAccessKey". rewrite (Hval _ H). reflexivity. }
  destruct (checkEach_missing (sortFlags (formal fs)) w) as (name & Hin & Hrun).
  { destruct Hempty as [name Hname]. exists name.
    unfold sortFlags. rewrite merge_sort_Permutation.
    apply elem_of_map_to_list. exact Hname. }
  exists name.
  assert (Hname : formal fs !! name = Some "").
  { unfold sortFlags in Hin. rewrite merge_sort_Permutation in Hin.
    apply elem_of_map_to_list in Hin. exact Hin. }
  assert (Hmain : main remote os_Args env w
                  = (print ("Missing required arg '" +:+ name +:+ "'."
                            +:+ newline) w, Exit 1)).
  { unfold main. rewrite decide_False by lia.
    unfold pbind, CommandLine_Parse. fold mainFlags. rewrite Hparse.
    unfold checkArgs. rewrite Hrun. reflexivity. }
  split; [exact Hname|]. split; [exact Hmain|]. rewrite Hmain. reflexivity.
Qed.

End CommandLine.

Lemma main_without_command_panics_witness :
  main (lib := demoLib) demoRemote ["fastly-logging-creds"] demoEnv w0
  = (w0, Panic "runtime error: slice bounds out of range [2:1]").
Proof.
  apply (proj2 (main_without_command_panics (lib := demoLib) demoRemote
                  ["fastly-logging-creds"] demoEnv w0 eq_refl)).
Defined.

Lemma main_missing_flag_witness :
  let os_Args := ["fastly-logging-creds"; "describe"; "-awsAccessKey=AK"] in
  let fs := mkFlagSet (<["awsAccessKey" := "AK"]> (formal mainFlags))
              {[ "awsAccessKey" ]} [] in
  Parse mainFlags (drop 2 os_Args) = inr fs
  ∧ ∃ name, formal fs !! name = Some ""
      ∧ main (lib := demoLib) demoRemote os_Args demoEnv w0
        = (print ("Missing required arg '" +:+ name +:+ "'." +:+ newline) w0,
           Exit 1)
      ∧ trace (main (lib := demoLib) demoRemote os_Args demoEnv w0).1
        = trace w0.
Proof.
  intros os_Args fs.
  assert (Hparse : Parse mainFlags (drop 2 os_Args) = inr fs)
    by (vm_compute; reflexivity).
  split; [exact Hparse|].
  apply (main_missing_flag (lib := demoLib) demoRemote os_Args demoEnv w0 fs).
  - simpl. lia.
  - exact Hparse.
  - left. simpl. intros Hin. apply elem_of_singleton in Hin. discriminate.
Defined.

(** C6, as the specification words it, fails in two ways: a run that does
    not give [loggingName] uses the default "s3-logs", and a run without
    [AWS_SECRET_KEY] and [FASTLY_KEY] is not stopped either; both go through
    the whole workflow (four requests) and return normally. *)
Lemma missing_inputs_not_all_checked :
  let noName := ["fastly-logging-creds"; "describe"; "-serviceID=abc";
                 "-awsAccessKey=AK"] in
  let allFlags := ["fastly-logging-creds"; "describe"; "-serviceID=abc";
                   "-awsAccessKey=AK"; "-loggingName=s3-logs"] in
  ((main (lib := demoLib) demoRemote noName demoEnv w0).2 = Done tt
   ∧ length (trace (main (lib := demoLib) demoRemote noName demoEnv w0).1)
     = 4%nat
   ∧ ¬ missing_input_rule_as_specified (lib := demoLib) demoRemote noName
         demoEnv w0)
  ∧ ((main (lib := demoLib) demoRemote allFlags ∅ w0).2 = Done tt
     ∧ length (trace (main (lib := demoLib) demoRemote allFlags ∅ w0).1)
       = 4%nat
     ∧ ¬ missing_input_rule_as_specified (lib := demoLib) demoRemote allFlags
           ∅ w0).
Proof.
  intros noName allFlags. split.
  - split; [vm_compute; reflexivity|]. split; [vm_compute; reflexivity|].
    intros H.
    destruct (H (mkFlagSet
                   (<["awsAccessKey" := "AK"]>
                      (<["serviceID" := "abc"]> (formal mainFlags)))
                   {[ "awsAccessKey"; "serviceID" ]} []))
      as (code & msg & _ & Hmain).
    + vm_compute. reflexivity.
    + right. left. simpl. intros Hin.
      apply elem_of_union in Hin as [Hin|Hin];
        apply elem_of_singleton in Hin; discriminate.
    + vm_compute in Hmain. discriminate.
  - split; [vm_compute; reflexivity|]. split; [vm_compute; reflexivity|].
    intros H.
    destruct (H (mkFlagSet
                   (<["loggingName" := "s3-logs"]>
                      (<["awsAccessKey" := "AK"]>
                         (<["serviceID" := "abc"]> (formal mainFlags))))
                   {[ "loggingName"; "awsAccessKey"; "serviceID" ]} []))
      as (code & msg & _ & Hmain).
    + vm_compute. reflexivity.
    + right. right. right. left. reflexivity.
    + vm_compute in Hmain. discriminate.
Qed.

Section SecretKey.

Context {lib : GoLib} (remote : Remote).
Variable Q : Request -> Prop.
Hypothesis Q_no_body : ∀ method url key, Q (api_request method url key None).

Lemma keeps_ret {A} (a : A) : keeps Q (ret a).
Proof. intros w Hw. exact Hw. Qed.

Lemma keeps_bind {A B} (m : IO A) (k : A -> IO B) :
  keeps Q m → (∀ a, keeps Q (k a)) → keeps Q (bind m k).
Proof.
  intros Hm Hk w Hw. unfold bind. specialize (Hm w Hw).
  destruct (m w) as [w' a]. exact (Hk a w' Hm).
Qed.

Lemma keeps_fastlyHTTP path method key body :
  Q (api_request method ("https://api.fastly.com" +:+ path) key body) →
  keeps Q (fastlyHTTP remote path method key body).
Proof.
  intros Hq w Hw.
  destruct (fastlyHTTP_cases remote path method key body w)
    as [(e & _ & Hr) | (_ & Hr)]; rewrite Hr; simpl; [exact Hw|].
  apply Forall_app. split; [exact Hw|]. apply Forall_singleton. exact Hq.
Qed.

Ltac keeps_step :=
  first [ apply keeps_ret
        | apply keeps_fastlyHTTP; apply Q_no_body
        | apply keeps_bind; [|intros [? [?|]]] ].

Lemma keeps_getActiveService serviceID key :
  keeps Q (getActiveService remote serviceID key).
Proof.
  unfold getActiveService. repeat keeps_step.
  destruct (Unmarshal_Versions _) as [data [e|]]; apply keeps_ret.
Qed.

Lemma keeps_cloneService serviceID v key :
  keeps Q (cloneService remote serviceID v key).
Proof.
  unfold cloneService. repeat keeps_step.
  destruct (Unmarshal_Version _) as [data e]. apply keeps_ret.
Qed.

Lemma keeps_getLogConfiguration serviceID v key :
  keeps Q (getLogConfiguration remote serviceID v key).
Proof. unfold getLogConfiguration. repeat keeps_step. Qed.

Lemma keeps_activateService serviceID v key :
  keeps Q (activateService remote serviceID v key).
Proof. unfold activateService. repeat keeps_step. Qed.

Lemma keeps_deleteEach serviceID v key confs :
  keeps Q (deleteEach remote serviceID v key confs).
Proof.
  induction confs as [|c rest IH]; simpl; [apply keeps_ret|].
  apply keeps_bind; [apply keeps_fastlyHTTP; apply Q_no_body|].
  intros [b [e|]]; [apply keeps_ret | exact IH].
Qed.

Lemma keeps_deleteLogConfiguration serviceID v key :
  keeps Q (deleteLogConfiguration remote serviceID v key).
Proof.
  unfold deleteLogConfiguration.
  apply keeps_bind; [apply keeps_getLogConfiguration|].
  intros [data [e|]]; [apply keeps_ret|].
  destruct (Unmarshal_confs data) as [confs [e|]];
    [apply keeps_ret | apply keeps_deleteEach].
Qed.

Lemma keeps_describe key serviceID v :
  keeps Q (describeLogs_fn remote key serviceID v).
Proof.
  unfold describeLogs_fn.
  apply keeps_bind; [apply keeps_getLogConfiguration|].
  intros [data [e|]]; [apply keeps_ret|]. intros w Hw. exact Hw.
Qed.

Lemma keeps_updateService key serviceID (fn : Z -> IO error) :
  (∀ v, keeps Q (fn v)) → keeps Q (updateService remote key serviceID fn).
Proof.
  intros Hfn. unfold updateService.
  apply keeps_bind; [apply keeps_getActiveService|].
  intros [v [e|]]; [apply keeps_ret|].
  apply keeps_bind; [apply keeps_cloneService|].
  intros [nv [e|]]; [apply keeps_ret|].
  apply keeps_bind; [apply Hfn|].
  intros [e|]; [apply keeps_ret | apply keeps_activateService].
Qed.

Lemma pkeeps_checked (m : IO error) :
  keeps Q m → pkeeps Q (pbind (lift m) check).
Proof.
  intros Hm w Hw. unfold pbind, lift. specialize (Hm w Hw).
  destruct (m w) as [w' [e|]]; exact Hm.
Qed.

Lemma checkEach_trace flags w : trace (checkEach flags w).1 = trace w.
Proof.
  induction flags as [|[name value] rest IH]; simpl; [reflexivity|].
  case_decide; [reflexivity | exact IH].
Qed.

(** [main] keeps [Q] when the two mutations that send a form do, for the
    secret key read from the environment. *)
Lemma pkeeps_main os_Args env :
  (∀ method url key ak form,
      form !! "secret_key" = Some [os_Getenv env "AWS_SECRET_KEY"] →
      form !! "access_key" = Some [ak] →
      Q (api_request method url key (Some (Encode form)))) →
  pkeeps Q (main remote os_Args env).
Proof.
  intros Hform w Hw. unfold main.
  case_decide; [exact Hw|]. unfold pbind at 1.
  unfold CommandLine_Parse.
  destruct (Parse _ _) as [[|msg]|fs]; [exact Hw | exact Hw |].
  unfold pbind at 1.
  pose proof (checkEach_trace (sortFlags (formal fs)) w) as Hc.
  unfold checkArgs.
  destruct (checkEach (sortFlags (formal fs)) w) as [w' [[]|code|msg]];
    simpl in Hc; try (simpl; rewrite Hc; exact Hw).
  assert (Hw' : Forall Q (trace w')) by (rewrite Hc; exact Hw).
  destruct (os_Args !! 1%nat) as [command|]; [|exact Hw'].
  repeat case_decide.
  - apply pkeeps_checked; [|exact Hw']. apply keeps_updateService.
    intros v. unfold rotateCreds_fn, updateLoggingCreds.
    apply keeps_bind; [|intros [b e]; apply keeps_ret].
    apply keeps_fastlyHTTP.
    apply (Hform _ _ _ (flagValue fs "awsAccessKey")); simplify_map_eq;
      reflexivity.
  - apply pkeeps_checked; [|exact Hw']. apply keeps_updateService.
    apply keeps_describe.
  - apply pkeeps_checked; [|exact Hw']. apply keeps_updateService.
    intros v. apply keeps_deleteLogConfiguration.
  - apply pkeeps_checked; [|exact Hw']. apply keeps_updateService.
    intros v. unfold createLogs_fn, createLogConfiguration.
    apply keeps_bind; [|intros [b e]; apply keeps_ret].
    apply keeps_fastlyHTTP.
    apply (Hform _ _ _ (flagValue fs "awsAccessKey")); simplify_map_eq;
      reflexivity.
  - exact Hw'.
Qed.

End SecretKey.

(** C9: [main] defines exactly the flags [serviceID], [awsAccessKey] and
    [loggingName], before and after parsing, so none holds the secret key;
    and whatever the command line and the remote, every request a run sends
    has no body or encodes a form whose [secret_key] is the value of
    [AWS_SECRET_KEY] in the environment. *)
Theorem secret_key_only_from_env {lib : GoLib} (remote : Remote)
    os_Args env w :
  dom (formal mainFlags)
  = ({[ "serviceID"; "awsAccessKey"; "loggingName" ]} : gset string)
  ∧ (∀ fs, Parse mainFlags (drop 2 os_Args) = inr fs →
       dom (formal fs)
       = ({[ "serviceID"; "awsAccessKey"; "loggingName" ]} : gset string))
  ∧ (∀ r, r ∈ trace (main remote os_Args env w).1 →
       r ∈ trace w ∨ secret_from_env env r).
Proof.
  assert (Hdom : dom (formal mainFlags)
                 = ({[ "serviceID"; "awsAccessKey"; "loggingName" ]}
                    : gset string)).
  { unfold mainFlags, flag_String, CommandLine. simpl.
    rewrite !dom_insert_L, dom_empty_L.
    apply set_eq. intros x. rewrite !elem_of_union, !elem_of_singleton.
    rewrite elem_of_empty. tauto. }
  split; [exact Hdom|]. split.
  - intros fs Hparse.
    destruct (parseFlags_unset _ _ _ _ _ (Nat.le_refl _) Hparse)
      as (_ & _ & Hfs).
    rewrite Hfs. exact Hdom.
  - intros r Hr.
    assert (Hall : Forall (fun r => r ∈ trace w ∨ secret_from_env env r)
                     (trace (main remote os_Args env w).1)).
    { apply pkeeps_main.
      - intros method url key. right. left. reflexivity.
      - intros method url key ak form Hsecret _. right. right.
        exists form. split; [reflexivity | exact Hsecret].
      - apply Forall_forall. intros x Hx. left. exact Hx. }
    rewrite Forall_forall in Hall. exact (Hall r Hr).
Qed.

Lemma secret_key_only_from_env_witness :
  let os_Args := ["fastly-logging-creds"; "rotate-creds"; "-serviceID=abc";
                  "-awsAccessKey=AK"] in
  let r := api_request MethodPut
             "https://api.fastly.com/service/abc/version/6/logging/s3/s3-logs"
             "fk" (Some "access_key=AK&secret_key=SK") in
  r ∈ trace (main (lib := demoLib) demoRemote os_Args demoEnv w0).1
  ∧ (r ∈ trace w0 ∨ secret_from_env (lib := demoLib) demoEnv r).
Proof.
  intros os_Args r.
  assert (Hr : r ∈ trace (main (lib := demoLib) demoRemote os_Args demoEnv
                           w0).1).
  { vm_compute. apply list_elem_of_further, list_elem_of_further,
      list_elem_of_here. }
  split; [exact Hr|].
  exact (proj2 (proj2 (secret_key_only_from_env (lib := demoLib) demoRemote
                         os_Args demoEnv w0)) r Hr).
Defined.

(** * Further properties of the current program *)

Section RequestHelperEdges.

Context {lib : GoLib} (remote : Remote).

(** X1: the three ways a call fails before the status is looked at.  When
    the request cannot be built nothing is sent; when [client.Do] fails, or
    the body cannot be read (whatever the status, 200 included), the request
    was sent and that error is returned with a nil body. *)
Theorem fastlyHTTP_failures path method fastlyKey reqBody w :
  let reqURL := "https://api.fastly.com" +:+ path in
  let req := api_request method reqURL fastlyKey reqBody in
  (∀ e, NewRequest_err method reqURL = Some e →
        fastlyHTTP remote path method fastlyKey reqBody w
        = (w, ("", Some e)))
  ∧ (∀ e, NewRequest_err method reqURL = None →
          remote (trace w) req = inl e →
          fastlyHTTP remote path method fastlyKey reqBody w
          = (send req w, ("", Some e)))
  ∧ (∀ resp partial e,
        NewRequest_err method reqURL = None →
        remote (trace w) req = inr resp →
        ReadAll resp = (partial, Some e) →
        fastlyHTTP remote path method fastlyKey reqBody w
        = (send req w, ("", Some e))).
Proof.
  intros reqURL req. unfold fastlyHTTP. fold reqURL. fold req.
  split; [|split].
  - intros e Hn. rewrite Hn. reflexivity.
  - intros e Hn Hr. rewrite Hn. unfold_io. rewrite Hr. reflexivity.
  - intros resp partial e Hn Hr Hb. rewrite Hn. unfold_io.
    rewrite Hr, Hb. reflexivity.
Qed.

(** A call that returns no error was answered with a readable 200. *)
Lemma fastlyHTTP_ok_inv path method fastlyKey reqBody w w' body :
  let req := api_request method ("https://api.fastly.com" +:+ path)
               fastlyKey reqBody in
  fastlyHTTP remote path method fastlyKey reqBody w = (w', (body, None)) →
  ∃ resp, remote (trace w) req = inr resp
          ∧ StatusCode resp = 200
          ∧ ReadAll resp = (body, None)
          ∧ w' = send req w.
Proof.
  intros req. unfold fastlyHTTP. fold req.
  destruct (NewRequest_err method _); [discriminate|].
  unfold_io. destruct (remote (trace w) req) as [e|resp]; [discriminate|].
  destruct (ReadAll resp) as [b [e|]] eqn:Hb; [discriminate|].
  case_decide as Hs; [discriminate|]. intros [= <- <-].
  exists resp. unfold StatusOK in Hs.
  destruct (decide (StatusCode resp = 200)) as [Heq|Hne];
    [|contradiction]. repeat split; try reflexivity; assumption.
Qed.

(** X2: a call writes nothing, sends at most the one request it built, and
    returns a nil body whenever it returns an error. *)
Theorem fastlyHTTP_frame path method fastlyKey reqBody w :
  let req := api_request method ("https://api.fastly.com" +:+ path)
               fastlyKey reqBody in
  let r := fastlyHTTP remote path method fastlyKey reqBody w in
  stdout r.1 = stdout w
  ∧ stderr r.1 = stderr w
  ∧ (trace r.1 = trace w ∨ trace r.1 = (trace w ++ [req])%list)
  ∧ (r.2.2 ≠ None → r.2.1 = "").
Proof.
  intros req r. subst r. unfold fastlyHTTP. fold req.
  destruct (NewRequest_err method _) as [e|]; [simpl; auto|].
  unfold_io. destruct (remote (trace w) req) as [e|resp]; [simpl; auto|].
  destruct (ReadAll resp) as [body [e|]]; [simpl; auto|].
  case_decide; simpl; auto. repeat split; auto. congruence.
Qed.

End RequestHelperEdges.

Lemma fastlyHTTP_failures_witness :
  let newline_path := "/service/" +:+ newline +:+ "/version" in
  let req := api_request MethodGet
               "https://api.fastly.com/service/abc/version" "fk" None in
  fastlyHTTP (lib := strictLib) demoRemote newline_path MethodGet "fk" None w0
  = (w0, ("", Some (errors_New "net/url: invalid control character in URL")))
  ∧ fastlyHTTP (lib := demoLib) downRemote "/service/abc/version" MethodGet
      "fk" None w0
    = (send req w0, ("", Some (errors_New "dial tcp: connection refused")))
  ∧ fastlyHTTP (lib := demoLib) truncatedRemote "/service/abc/version"
      MethodGet "fk" None w0
    = (send req w0, ("", Some (errors_New "unexpected EOF"))).
Proof.
  intros newline_path req. split; [|split].
  - apply (proj1 (fastlyHTTP_failures (lib := strictLib) demoRemote
                    newline_path MethodGet "fk" None w0)).
    reflexivity.
  - apply (proj1 (proj2 (fastlyHTTP_failures (lib := demoLib) downRemote
                           "/service/abc/version" MethodGet "fk" None w0)));
      reflexivity.
  - apply (proj2 (proj2 (fastlyHTTP_failures (lib := demoLib) truncatedRemote
                           "/service/abc/version" MethodGet "fk" None w0))
             (mkResponse 200 ("vers", Some (errors_New "unexpected EOF")))
             "vers"); reflexivity.
Defined.

Section HostAndKey.

Context {lib : GoLib} (remote : Remote).
Variables (key serviceID : string).
Variable Q : Request -> Prop.
Hypothesis Q_api : ∀ method rest body,
  Q (api_request method
       ("https://api.fastly.com/service/" +:+ serviceID +:+ "/version"
        +:+ rest) key body).

(** A call on a path of the service, [rest] being what follows
    [/service/<id>/version]. *)
Ltac api_call rest :=
  apply keeps_fastlyHTTP;
  match goal with
  | |- Q (api_request ?m _ _ ?b) => exact (Q_api m rest b)
  end.

Lemma api_getActiveService :
  keeps Q (getActiveService remote serviceID key).
Proof.
  unfold getActiveService.
  apply keeps_bind; [api_call ""|].
  intros [body [e|]]; [apply keeps_ret|].
  destruct (Unmarshal_Versions _) as [data [e|]]; apply keeps_ret.
Qed.

Lemma api_cloneService v :
  keeps Q (cloneService remote serviceID v key).
Proof.
  unfold cloneService.
  apply keeps_bind; [api_call ("/" +:+ pretty v +:+ "/clone")|].
  intros [body [e|]]; [apply keeps_ret|].
  destruct (Unmarshal_Version _) as [data e]. apply keeps_ret.
Qed.

Lemma api_getLogConfiguration v :
  keeps Q (getLogConfiguration remote serviceID v key).
Proof.
  unfold getLogConfiguration.
  apply keeps_bind; [api_call ("/" +:+ pretty v +:+ "/logging/s3")|].
  intros [body [e|]]; apply keeps_ret.
Qed.

Lemma api_activateService v :
  keeps Q (activateService remote serviceID v key).
Proof.
  unfold activateService.
  apply keeps_bind; [api_call ("/" +:+ pretty v +:+ "/activate")|].
  intros [body e]. apply keeps_ret.
Qed.

Lemma api_updateLoggingCreds v loggingName ak sk :
  keeps Q (updateLoggingCreds remote serviceID v loggingName key ak sk).
Proof.
  unfold updateLoggingCreds.
  apply keeps_bind;
    [api_call ("/" +:+ pretty v +:+ "/logging/s3/" +:+ loggingName)|].
  intros [body e]. apply keeps_ret.
Qed.

Lemma api_createLogConfiguration v ak sk :
  keeps Q (createLogConfiguration remote serviceID v key ak sk).
Proof.
  unfold createLogConfiguration.
  apply keeps_bind; [api_call ("/" +:+ pretty v +:+ "/logging/s3")|].
  intros [body e]. apply keeps_ret.
Qed.

Lemma api_deleteEach v confs :
  keeps Q (deleteEach remote serviceID v key confs).
Proof.
  induction confs as [|c rest IH]; simpl; [apply keeps_ret|].
  apply keeps_bind;
    [api_call ("/" +:+ pretty v +:+ "/logging/s3/" +:+ conf_name c)|].
  intros [b [e|]]; [apply keeps_ret | exact IH].
Qed.

Lemma api_deleteLogConfiguration v :
  keeps Q (deleteLogConfiguration remote serviceID v key).
Proof.
  unfold deleteLogConfiguration.
  apply keeps_bind; [apply api_getLogConfiguration|].
  intros [data [e|]]; [apply keeps_ret|].
  destruct (Unmarshal_confs data) as [confs [e|]];
    [apply keeps_ret | apply api_deleteEach].
Qed.

Lemma api_describe v :
  keeps Q (describeLogs_fn remote key serviceID v).
Proof.
  unfold describeLogs_fn.
  apply keeps_bind; [apply api_getLogConfiguration|].
  intros [data [e|]]; [apply keeps_ret|]. intros w Hw. exact Hw.
Qed.

Lemma api_updateService (fn : Z -> IO error) :
  (∀ v, keeps Q (fn v)) → keeps Q (updateService remote key serviceID fn).
Proof.
  intros Hfn. unfold updateService.
  apply keeps_bind; [apply api_getActiveService|].
  intros [v [e|]]; [apply keeps_ret|].
  apply keeps_bind; [apply api_cloneService|].
  intros [nv [e|]]; [apply keeps_ret|].
  apply keeps_bind; [apply Hfn|].
  intros [e|]; [apply keeps_ret | apply api_activateService].
Qed.

Lemma api_checked (m : IO error) :
  keeps Q m → pkeeps Q (pbind (lift m) check).
Proof.
  intros Hm w Hw. unfold pbind, lift. specialize (Hm w Hw).
  destruct (m w) as [w' [e|]]; exact Hm.
Qed.

End HostAndKey.

Section MainRequests.

Context {lib : GoLib} (remote : Remote).

Lemma checkArgs_trace f w : trace (checkArgs f w).1 = trace w.
Proof.
  unfold checkArgs. generalize (sortFlags (formal f)).
  intros flags. induction flags as [|[name value] rest IH]; simpl;
    [reflexivity|].
  case_decide; [reflexivity | exact IH].
Qed.

(** [main] keeps a property of requests that holds of every request built
    for the service of the parsed [serviceID] flag and the key of the
    environment. *)
Lemma api_main (Q : Request -> Prop) os_Args env :
  (∀ fs method rest body,
      Parse mainFlags (drop 2 os_Args) = inr fs →
      Q (api_request method
           ("https://api.fastly.com/service/" +:+ flagValue fs "serviceID"
            +:+ "/version" +:+ rest)
           (os_Getenv env "FASTLY_KEY") body)) →
  pkeeps Q (main remote os_Args env).
Proof.
  intros Hq w Hw. unfold main.
  case_decide; [exact Hw|]. unfold pbind at 1.
  unfold CommandLine_Parse. fold mainFlags.
  destruct (Parse mainFlags (drop 2 os_Args)) as [[|msg]|fs] eqn:Hparse;
    [exact Hw | exact Hw |].
  specialize (Hq fs).
  assert (Hq' : ∀ method rest body,
            Q (api_request method
                 ("https://api.fastly.com/service/"
                  +:+ flagValue fs "serviceID" +:+ "/version" +:+ rest)
                 (os_Getenv env "FASTLY_KEY") body))
    by (intros; apply Hq; reflexivity).
  clear Hq.
  unfold pbind at 1.
  pose proof (checkArgs_trace fs w) as Hc.
  destruct (checkArgs fs w) as [w' [[]|code|msg]];
    simpl in Hc; try (simpl; rewrite Hc; exact Hw).
  assert (Hw' : Forall Q (trace w')) by (rewrite Hc; exact Hw).
  destruct (os_Args !! 1%nat) as [command|]; [|exact Hw'].
  repeat case_decide.
  - apply api_checked; [|exact Hw']. apply api_updateService; [exact Hq'|].
    intros v. apply api_updateLoggingCreds. exact Hq'.
  - apply api_checked; [|exact Hw']. apply api_updateService; [exact Hq'|].
    intros v. apply api_describe. exact Hq'.
  - apply api_checked; [|exact Hw']. apply api_updateService; [exact Hq'|].
    intros v. apply api_deleteLogConfiguration. exact Hq'.
  - apply api_checked; [|exact Hw']. apply api_updateService; [exact Hq'|].
    intros v. apply api_createLogConfiguration. exact Hq'.
  - exact Hw'.
Qed.

(** X3: whatever the command line and the remote, every request a run
    hands to the HTTP client is for the service of the [serviceID] flag: its
    URL is https://api.fastly.com/service/<serviceID>/version followed by
    the rest of the path, and it carries exactly two headers, [Fastly-Key]
    with the value of [FASTLY_KEY] in the environment and
    [Accept: application/json] (no content type, also when there is a form
    body). *)
Theorem main_requests_to_api_host os_Args env w :
  ∀ r, r ∈ trace (main remote os_Args env w).1 →
    r ∈ trace w
    ∨ ∃ fs method rest body,
        Parse mainFlags (drop 2 os_Args) = inr fs
        ∧ r = mkRequest method
                ("https://api.fastly.com/service/"
                 +:+ flagValue fs "serviceID" +:+ "/version" +:+ rest)
                [("Fastly-Key", os_Getenv env "FASTLY_KEY");
                 ("Accept", "application/json")] body.
Proof.
  intros r Hr.
  assert (Hall : Forall (fun r => r ∈ trace w
                    ∨ ∃ fs method rest body,
                        Parse mainFlags (drop 2 os_Args) = inr fs
                        ∧ r = mkRequest method
                                ("https://api.fastly.com/service/"
                                 +:+ flagValue fs "serviceID" +:+ "/version"
                                 +:+ rest)
                                [("Fastly-Key", os_Getenv env "FASTLY_KEY");
                                 ("Accept", "application/json")] body)
                   (trace (main remote os_Args env w).1)).
  { apply api_main.
    - intros fs method rest body Hparse. right.
      exists fs, method, rest, body. split; [exact Hparse | reflexivity].
    - apply Forall_forall. intros x Hx. left. exact Hx. }
  rewrite Forall_forall in Hall. exact (Hall r Hr).
Qed.

End MainRequests.

Lemma main_requests_to_api_host_witness :
  let os_Args := ["fastly-logging-creds"; "create"; "-serviceID=abc";
                  "-awsAccessKey=AK"] in
  let r := mkRequest MethodPost
             "https://api.fastly.com/service/abc/version/6/logging/s3"
             [("Fastly-Key", "fk"); ("Accept", "application/json")]
             (Some "access_key=AK&bucket_name=aws-frontend-logs&name=s3-logs&path=/fastly/abc&secret_key=SK") in
  r ∈ trace (main (lib := demoLib) demoRemote os_Args demoEnv w0).1
  ∧ (r ∈ trace w0
     ∨ ∃ fs method rest body,
         Parse mainFlags (drop 2 os_Args) = inr fs
         ∧ r = mkRequest method
                 ("https://api.fastly.com/service/"
                  +:+ flagValue fs "serviceID" +:+ "/version" +:+ rest)
                 [("Fastly-Key", os_Getenv demoEnv "FASTLY_KEY");
                  ("Accept", "application/json")] body).
Proof.
  intros os_Args r.
  assert (Hr : r ∈ trace (main (lib := demoLib) demoRemote os_Args demoEnv
                           w0).1).
  { vm_compute. apply list_elem_of_further, list_elem_of_further,
      list_elem_of_here. }
  split; [exact Hr|].
  exact (main_requests_to_api_host (lib := demoLib) demoRemote os_Args demoEnv
           w0 r Hr).
Defined.

Section Operations.

Context {lib : GoLib} (remote : Remote).

(** X4: the request [updateLoggingCreds] sends is a PUT to the named
    endpoint of the given version, with the two headers of the request
    helper, whose body encodes a form with exactly two fields, the access key
    and the secret key; the endpoint's name is only in the URL.  It is the
    one request sent, unless the request cannot be built, in which case
    nothing is sent. *)
Theorem updateLoggingCreds_form serviceID versionID loggingName fastlyKey
    awsAccessKey awsSecretKey w :
  ∃ form : gmap string (list string),
    form !! "access_key" = Some [awsAccessKey]
    ∧ form !! "secret_key" = Some [awsSecretKey]
    ∧ dom form = ({[ "access_key"; "secret_key" ]} : gset string)
    ∧ let req := mkRequest MethodPut
                   ("https://api.fastly.com/service/" +:+ serviceID
                    +:+ "/version/" +:+ pretty versionID
                    +:+ "/logging/s3/" +:+ loggingName)
                   [("Fastly-Key", fastlyKey); ("Accept", "application/json")]
                   (Some (Encode form)) in
      (NewRequest_err MethodPut (URL req) = None →
       (updateLoggingCreds remote serviceID versionID loggingName fastlyKey
          awsAccessKey awsSecretKey w).1 = send req w)
      ∧ (∀ e, NewRequest_err MethodPut (URL req) = Some e →
         updateLoggingCreds remote serviceID versionID loggingName fastlyKey
           awsAccessKey awsSecretKey w = (w, Some e)).
Proof.
  exists ({[ "access_key" := [awsAccessKey];
             "secret_key" := [awsSecretKey] ]}).
  split; [simplify_map_eq; reflexivity|].
  split; [simplify_map_eq; reflexivity|].
  split.
  { rewrite dom_insert_L, dom_singleton_L. reflexivity. }
  intros req. unfold updateLoggingCreds, bind.
  match goal with
  | |- context [fastlyHTTP remote ?p ?m ?k ?b w] =>
      destruct (fastlyHTTP_cases remote p m k b w)
        as [(e & He & Hr) | (He & Hr)];
      destruct (fastlyHTTP remote p m k b w) as [w' [x e']]
  end; (split; [intros Hn | intros e0 Hn]);
    pose proof (eq_trans (eq_sym He) Hn) as Hc; try discriminate Hc.
  - injection Hc as <-. injection Hr as -> _ ->. reflexivity.
  - exact Hr.
Qed.

(** X5: when several versions are marked active, [getActiveService]
    returns the number of the first one in the list and ignores the rest. *)
Theorem getActiveService_first_active serviceID fastlyKey w w' body
    pre v post :
  fastlyHTTP remote ("/service/" +:+ serviceID +:+ "/version") MethodGet
    fastlyKey None w = (w', (body, None)) →
  Unmarshal_Versions body = ((pre ++ v :: post)%list, None) →
  Forall (fun x => Active x = false) pre →
  Active v = true →
  getActiveService remote serviceID fastlyKey w = (w', (Number v, None)).
Proof.
  intros Hhttp Hjson Hpre Hv. unfold getActiveService, bind.
  rewrite Hhttp, Hjson. unfold ret. f_equal.
  clear Hjson. induction Hpre as [|x pre Hx _ IH]; simpl.
  - rewrite Hv. reflexivity.
  - rewrite Hx. exact IH.
Qed.

(** X6: [getActiveService] writes nothing and sends at most one request,
    the GET of the version list; whenever it returns an error the number it
    returns is 0. *)
Theorem getActiveService_error_zero serviceID fastlyKey w :
  let r := getActiveService remote serviceID fastlyKey w in
  stdout r.1 = stdout w
  ∧ stderr r.1 = stderr w
  ∧ (trace r.1 = trace w
     ∨ trace r.1 = (trace w ++ [versionsRequest serviceID fastlyKey])%list)
  ∧ (r.2.2 ≠ None → r.2.1 = 0).
Proof.
  intros r. subst r. unfold getActiveService, bind.
  assert (Hw : ∀ w', (fastlyHTTP remote
                        ("/service/" +:+ serviceID +:+ "/version")
                        MethodGet fastlyKey None w).1 = w' →
               stdout w' = stdout w ∧ stderr w' = stderr w
               ∧ (trace w' = trace w
                  ∨ trace w'
                    = (trace w ++ [versionsRequest serviceID fastlyKey])%list)).
  { intros w' <-.
    destruct (fastlyHTTP_cases remote
                ("/service/" +:+ serviceID +:+ "/version") MethodGet
                fastlyKey None w) as [(e & _ & Hr) | (_ & Hr)];
      rewrite Hr; simpl; auto. }
  destruct (fastlyHTTP remote _ MethodGet fastlyKey None w)
    as [w' [body [e|]]]; simpl in *;
    destruct (Hw w' eq_refl) as (Ho & He & Ht).
  - repeat split; auto.
  - destruct (Unmarshal_Versions body) as [data [e|]]; simpl.
    + repeat split; auto.
    + repeat split; auto. intros Hne.
      induction data as [|x data IH]; simpl in *; [reflexivity|].
      destruct (Active x); [contradiction Hne; reflexivity | exact (IH Hne)].
Qed.

(** X7: [updateService] returns no error only when all four steps did:
    the active version was found, its clone decoded, the mutation succeeded
    and the activation of the clone was sent last and answered with 200. *)
Theorem updateService_success_inv fastlyKey serviceID (fn : Z -> IO error)
    w w' :
  updateService remote fastlyKey serviceID fn w = (w', None) →
  ∃ w1 v w2 nv w3 resp,
    getActiveService remote serviceID fastlyKey w = (w1, (v, None))
    ∧ cloneService remote serviceID v fastlyKey w1 = (w2, (nv, None))
    ∧ fn nv w2 = (w3, None)
    ∧ w' = send (activateRequest serviceID nv fastlyKey) w3
    ∧ remote (trace w3) (activateRequest serviceID nv fastlyKey) = inr resp
    ∧ StatusCode resp = 200.
Proof.
  unfold updateService, bind, ret. intros H.
  destruct (getActiveService remote serviceID fastlyKey w)
    as [w1 [v [e|]]] eqn:H1; [discriminate|].
  destruct (cloneService remote serviceID v fastlyKey w1)
    as [w2 [nv [e|]]] eqn:H2; [discriminate|].
  destruct (fn nv w2) as [w3 [e|]] eqn:H3; [discriminate|].
  unfold activateService, bind, ret in H.
  destruct (fastlyHTTP remote _ MethodPut fastlyKey None w3)
    as [w4 [b e]] eqn:H4.
  injection H as -> ->.
  destruct (fastlyHTTP_ok_inv remote _ _ _ _ _ _ _ H4)
    as (resp & Hr & Hs & _ & Hw).
  exists w1, v, w2, nv, w3, resp. repeat split; assumption.
Qed.

End Operations.

Lemma updateLoggingCreds_form_witness :
  (updateLoggingCreds (lib := demoLib) demoRemote "abc" 6 "s3-logs" "fk" "AK"
     "SK" w0).1
  = send (mkRequest MethodPut
            "https://api.fastly.com/service/abc/version/6/logging/s3/s3-logs"
            [("Fastly-Key", "fk"); ("Accept", "application/json")]
            (Some "access_key=AK&secret_key=SK"))
      w0.
Proof.
  destruct (updateLoggingCreds_form (lib := demoLib) demoRemote "abc" 6
              "s3-logs" "fk" "AK" "SK" w0)
    as (form & Hak & Hsk & Hdom & Hsend & _).
  rewrite (Hsend eq_refl).
  rewrite (form_determined form
             [("access_key", ["AK"]); ("secret_key", ["SK"])]).
  - vm_compute. reflexivity.
  - apply (bool_decide_unpack _). vm_compute. reflexivity.
  - rewrite Hdom. vm_compute. reflexivity.
  - repeat constructor; assumption.
Defined.

Lemma getActiveService_first_active_witness :
  getActiveService (lib := twoActiveLib) twoActiveRemote "abc" "fk" w0
  = (send (versionsRequest "abc" "fk") w0, (2, None)).
Proof.
  apply (getActiveService_first_active (lib := twoActiveLib) twoActiveRemote
           "abc" "fk" w0 _ "two active versions" [mkVersion false 1]
           (mkVersion true 2) [mkVersion true 7]).
  - reflexivity.
  - reflexivity.
  - repeat constructor.
  - reflexivity.
Defined.

Lemma getActiveService_error_zero_witness :
  (getActiveService (lib := demoLib) staleRemote "abc" "fk" w0).2.2
  = Some (errors_New "No active version found.")
  ∧ (getActiveService (lib := demoLib) staleRemote "abc" "fk" w0).2.1 = 0.
Proof.
  split; [reflexivity|].
  apply (getActiveService_error_zero (lib := demoLib) staleRemote "abc" "fk"
           w0).
  discriminate.
Defined.

Lemma updateService_success_inv_witness :
  let fn := describeLogs_fn (lib := demoLib) demoRemote "fk" "abc" in
  ∃ w3 resp,
    fn 6 (send (cloneRequest "abc" 5 "fk")
            (send (versionsRequest "abc" "fk") w0)) = (w3, None)
    ∧ demoRemote (trace w3) (activateRequest "abc" 6 "fk") = inr resp
    ∧ StatusCode resp = 200.
Proof.
  intros fn.
  destruct (updateService_success_inv (lib := demoLib) demoRemote "fk" "abc"
              fn w0
              (mkWorld
                 [versionsRequest "abc" "fk"; cloneRequest "abc" 5 "fk";
                  api_request MethodGet
                    "https://api.fastly.com/service/abc/version/6/logging/s3"
                    "fk" None;
                  activateRequest "abc" 6 "fk"]
                 ("endpoints" +:+ newline) ""))
    as (w1 & v & w2 & nv & w3 & resp & H1 & H2 & H3 & _ & Hr & Hs).
  { vm_compute. reflexivity. }
  assert (E1 : getActiveService (lib := demoLib) demoRemote "abc" "fk" w0
               = (send (versionsRequest "abc" "fk") w0, (5, None)))
    by (vm_compute; reflexivity).
  rewrite E1 in H1. injection H1 as <- <-.
  assert (E2 : cloneService (lib := demoLib) demoRemote "abc" 5 "fk"
                 (send (versionsRequest "abc" "fk") w0)
               = (send (cloneRequest "abc" 5 "fk")
                    (send (versionsRequest "abc" "fk") w0), (6, None)))
    by (vm_compute; reflexivity).
  rewrite E2 in H2. injection H2 as <- <-.
  exists w3, resp. repeat split; assumption.
Defined.

Section Endpoints.

Context {lib : GoLib} (remote : Remote).
Variables (serviceID : string) (versionID : Z) (fastlyKey : string).

(** X8: when the endpoint list cannot be fetched, or its body does not
    decode (whatever was decoded before the error), [deleteLogConfiguration]
    returns that error as it is and deletes nothing: the world is the one the
    GET left. *)
Theorem deleteLogConfiguration_early_failure w :
  (∀ w1 b e,
      getLogConfiguration remote serviceID versionID fastlyKey w
      = (w1, (b, Some e)) →
      deleteLogConfiguration remote serviceID versionID fastlyKey w
      = (w1, Some e))
  ∧ (∀ w1 data confs e,
      getLogConfiguration remote serviceID versionID fastlyKey w
      = (w1, (data, None)) →
      Unmarshal_confs data = (confs, Some e) →
      deleteLogConfiguration remote serviceID versionID fastlyKey w
      = (w1, Some e)
      ∧ (trace w1
         = (trace w ++ [logsRequest serviceID versionID fastlyKey])%list)).
Proof.
  unfold deleteLogConfiguration, bind. split.
  - intros w1 b e Hget. rewrite Hget. reflexivity.
  - intros w1 data confs e Hget Hjson. rewrite Hget, Hjson.
    split; [reflexivity|].
    unfold getLogConfiguration, bind in Hget.
    destruct (fastlyHTTP remote _ MethodGet fastlyKey None w)
      as [w' [body [e'|]]] eqn:Hhttp; [discriminate|].
    injection Hget as -> ->.
    destruct (fastlyHTTP_ok_inv remote _ _ _ _ _ _ _ Hhttp)
      as (resp & _ & _ & _ & ->).
    reflexivity.
Qed.

(** Whatever the remote does, the deletions sent are those of the first
    [k] endpoints, in list order. *)
Lemma deleteEach_sends_prefix (confs : list (gmap string string)) w :
  let r := deleteEach remote serviceID versionID fastlyKey confs w in
  ∃ k : nat,
    (k ≤ length confs)%nat
    ∧ r.1 = sendAll (map (deleteRequest serviceID versionID fastlyKey)
                       (map conf_name (take k confs))) w
    ∧ (r.2 = None → k = length confs).
Proof.
  revert w. induction confs as [|c rest IH]; intros w; simpl.
  - exists 0%nat. simpl. rewrite sendAll_nil. auto.
  - unfold bind.
    destruct (fastlyHTTP_cases remote
                ("/service/" +:+ serviceID +:+ "/version/"
                 +:+ pretty versionID +:+ "/logging/s3/" +:+ conf_name c)
                MethodDelete fastlyKey None w) as [(e & _ & Hr) | (_ & Hr)].
    + rewrite Hr. exists 0%nat. simpl. rewrite sendAll_nil.
      split; [lia|]. split; [reflexivity | discriminate].
    + destruct (fastlyHTTP remote _ MethodDelete fastlyKey None w)
        as [w' [b [e|]]]; simpl in Hr; subst w'.
      * exists 1%nat. simpl. rewrite sendAll_cons, sendAll_nil.
        split; [lia|]. split; [reflexivity | discriminate].
      * destruct (IH (send (deleteRequest serviceID versionID fastlyKey
                              (conf_name c)) w)) as (k & Hk & Hw & Hall).
        exists (S k). simpl. rewrite sendAll_cons.
        split; [lia|]. split; [exact Hw|].
        intros Hnone. rewrite (Hall Hnone). reflexivity.
Qed.

(** X9: once the endpoint list is fetched and decoded, whatever the remote
    answers, the requests [deleteLogConfiguration] sends are the deletions of
    the first [k] endpoints of the list, in list order, for some [k]; nothing
    is printed; and it returns no error only when [k] is the whole list. *)
Theorem deleteLogConfiguration_sends_prefix w w1 data confs :
  getLogConfiguration remote serviceID versionID fastlyKey w
  = (w1, (data, None)) →
  Unmarshal_confs data = (confs, None) →
  let r := deleteLogConfiguration remote serviceID versionID fastlyKey w in
  ∃ k : nat,
    (k ≤ length confs)%nat
    ∧ trace r.1
      = (trace w1 ++ map (deleteRequest serviceID versionID fastlyKey)
                       (map conf_name (take k confs)))%list
    ∧ stdout r.1 = stdout w1 ∧ stderr r.1 = stderr w1
    ∧ (r.2 = None → k = length confs).
Proof.
  intros Hget Hjson r. subst r. unfold deleteLogConfiguration, bind.
  rewrite Hget, Hjson.
  destruct (deleteEach_sends_prefix confs w1) as (k & Hk & Hw & Hall).
  exists k. rewrite Hw. simpl. auto.
Qed.

(** X10: the describe closure is read-only.  The only request it sends is
    the body-less GET of the draft's logging endpoints.  When that is
    answered with a readable 200 it prints the indented body and a newline
    and returns no error; it returns no error in no other case; and when it
    returns an error it has printed nothing and sent at most that GET. *)
Theorem describeLogs_fn_read_only w :
  let get := mkRequest MethodGet
               ("https://api.fastly.com/service/" +:+ serviceID
                +:+ "/version/" +:+ pretty versionID +:+ "/logging/s3")
               [("Fastly-Key", fastlyKey); ("Accept", "application/json")]
               None in
  let r := describeLogs_fn remote fastlyKey serviceID versionID w in
  (∀ resp data,
      NewRequest_err MethodGet (URL get) = None →
      remote (trace w) get = inr resp →
      StatusCode resp = 200 →
      ReadAll resp = (data, None) →
      r = (print (Indent data +:+ newline) (send get w), None))
  ∧ (r.2 = None →
     ∃ resp data,
       remote (trace w) get = inr resp ∧ StatusCode resp = 200
       ∧ ReadAll resp = (data, None)
       ∧ r.1 = print (Indent data +:+ newline) (send get w))
  ∧ (r.2 ≠ None → r.1 = w ∨ r.1 = send get w)
  ∧ stderr r.1 = stderr w.
Proof.
  intros get r. subst r.
  unfold describeLogs_fn, getLogConfiguration, bind.
  pose proof (fastlyHTTP_cases remote
                ("/service/" +:+ serviceID +:+ "/version/"
                 +:+ pretty versionID +:+ "/logging/s3")
                MethodGet fastlyKey None w) as Hcases.
  split; [|split; [|split]].
  - intros resp data Hn Hr Hs Hb.
    rewrite (fastlyHTTP_reply remote
               ("/service/" +:+ serviceID +:+ "/version/"
                +:+ pretty versionID +:+ "/logging/s3")
               MethodGet fastlyKey None w resp data Hn Hr Hb).
    rewrite decide_True by exact Hs. reflexivity.
  - destruct (fastlyHTTP remote _ MethodGet fastlyKey None w)
      as [w' [body [e|]]] eqn:Hhttp; simpl; [discriminate|].
    intros _.
    destruct (fastlyHTTP_ok_inv remote _ _ _ _ _ _ _ Hhttp)
      as (resp & Hr & Hs & Hb & ->).
    exists resp, body. auto.
  - destruct (fastlyHTTP remote _ MethodGet fastlyKey None w)
      as [w' [body [e|]]] eqn:Hhttp; simpl; [|intros H; contradiction].
    intros _.
    destruct Hcases as [(e' & _ & Hr) | (_ & Hr)].
    + injection Hr as -> _ _. left. reflexivity.
    + right. exact Hr.
  - destruct (fastlyHTTP remote _ MethodGet fastlyKey None w)
      as [w' [body [e|]]] eqn:Hhttp; simpl;
      destruct Hcases as [(e' & _ & Hr) | (_ & Hr)];
      try (injection Hr as -> _ _); try (simpl in Hr; subst w');
      try discriminate; reflexivity.
Qed.

End Endpoints.

Lemma deleteLogConfiguration_early_failure_witness :
  deleteLogConfiguration (lib := demoLib) busyRemote "abc" 6 "fk" w0
  = (send (logsRequest "abc" 6 "fk") w0,
     Some (errors_New
       "Fastly API request for 'https://api.fastly.com/service/abc/version/6/logging/s3' failed: 503, busy"))
  ∧ deleteLogConfiguration (lib := noConfsLib) demoRemote "abc" 6 "fk" w0
    = (send (logsRequest "abc" 6 "fk") w0,
       Some (errors_New
         "json: cannot unmarshal number into Go value of type string")).
Proof.
  split.
  - apply (proj1 (deleteLogConfiguration_early_failure (lib := demoLib)
                    busyRemote "abc" 6 "fk" w0) _ "").
    reflexivity.
  - apply (proj2 (deleteLogConfiguration_early_failure (lib := noConfsLib)
                    demoRemote "abc" 6 "fk" w0) _ "endpoints" demoConfs);
      reflexivity.
Defined.

Lemma deleteLogConfiguration_sends_prefix_witness :
  ∃ k : nat,
    (k ≤ 3)%nat
    ∧ trace (deleteLogConfiguration (lib := demoLib) deleteFailRemote "abc" 6
               "fk" w0).1
      = ([logsRequest "abc" 6 "fk"]
         ++ map (deleteRequest "abc" 6 "fk")
              (map conf_name (take k demoConfs)))%list.
Proof.
  destruct (deleteLogConfiguration_sends_prefix (lib := demoLib)
              deleteFailRemote "abc" 6 "fk" w0
              (send (logsRequest "abc" 6 "fk") w0) "endpoints" demoConfs
              eq_refl eq_refl) as (k & Hk & Ht & _).
  exists k. split; [exact Hk | exact Ht].
Defined.

Section Dispatch.

Context {lib : GoLib} (remote : Remote).

(** After parsing, the flags [checkArgs] visits are the three of [main], in
    name order. *)
Lemma sortFlags_main arguments fs :
  Parse mainFlags arguments = inr fs →
  sortFlags (formal fs)
  = [("awsAccessKey", flagValue fs "awsAccessKey");
     ("loggingName", flagValue fs "loggingName");
     ("serviceID", flagValue fs "serviceID")].
Proof.
  intros Hparse.
  destruct (parseFlags_unset _ _ _ _ _ (Nat.le_refl _) Hparse)
    as (_ & _ & Hdom).
  assert (Hin : ∀ name, name ∈ dom (formal mainFlags) →
                  ∃ v, formal fs !! name = Some v).
  { intros name Hname. rewrite <- Hdom in Hname.
    apply elem_of_dom in Hname as [v Hv]. exists v. exact Hv. }
  destruct (Hin "awsAccessKey") as [a Ha]; [vm_compute; tauto|].
  destruct (Hin "loggingName") as [l Hl]; [vm_compute; tauto|].
  destruct (Hin "serviceID") as [s Hs]; [vm_compute; tauto|].
  unfold flagValue. rewrite Ha, Hl, Hs. simpl.
  assert (Hfs : formal fs
                = <["loggingName" := l]>
                    (<["awsAccessKey" := a]> (<["serviceID" := s]> ∅))).
  { apply map_eq. intros k.
    destruct (decide (k = "loggingName")) as [->|N1];
      [rewrite Hl; simplify_map_eq; reflexivity|].
    destruct (decide (k = "awsAccessKey")) as [->|N2];
      [rewrite Ha; simplify_map_eq; reflexivity|].
    destruct (decide (k = "serviceID")) as [->|N3];
      [rewrite Hs; simplify_map_eq; reflexivity|].
    rewrite !lookup_insert_ne, lookup_empty by congruence.
    apply not_elem_of_dom. rewrite Hdom.
    unfold mainFlags, flag_String, CommandLine. simpl.
    rewrite !dom_insert_L, dom_empty_L.
    rewrite !elem_of_union, !elem_of_singleton, elem_of_empty.
    intros [?|[?|[?|[]]]]; congruence. }
  rewrite Hfs. vm_compute. reflexivity.
Qed.

(** What [main] does once the flags are parsed and none is empty. *)
Lemma main_after_checks os_Args env w fs command :
  os_Args !! 1%nat = Some command →
  Parse mainFlags (drop 2 os_Args) = inr fs →
  flagValue fs "awsAccessKey" ≠ "" →
  flagValue fs "loggingName" ≠ "" →
  flagValue fs "serviceID" ≠ "" →
  main remote os_Args env w
  = (if decide (command = "rotate-creds")
     then rotateCreds remote (os_Getenv env "FASTLY_KEY")
            (flagValue fs "serviceID") (flagValue fs "loggingName")
            (flagValue fs "awsAccessKey") (os_Getenv env "AWS_SECRET_KEY")
     else if decide (command = "describe")
     then describeLogs remote (os_Getenv env "FASTLY_KEY")
            (flagValue fs "serviceID")
     else if decide (command = "delete")
     then deleteLogs remote (os_Getenv env "FASTLY_KEY")
            (flagValue fs "serviceID")
     else if decide (command = "create")
     then createLogs remote (os_Getenv env "FASTLY_KEY")
            (flagValue fs "serviceID") (flagValue fs "awsAccessKey")
            (os_Getenv env "AWS_SECRET_KEY")
     else check (Some (errors_New
            "Must provide valid command. See -h for more info."))) w.
Proof.
  intros Hcmd Hparse Ha Hl Hs.
  assert (Hlen : (2 ≤ length os_Args)%nat)
    by (apply lookup_lt_Some in Hcmd; lia).
  unfold main. rewrite decide_False by lia.
  unfold pbind at 1. unfold CommandLine_Parse. fold mainFlags.
  rewrite Hparse. unfold pbind at 1. unfold checkArgs.
  rewrite (sortFlags_main _ _ Hparse). simpl checkEach.
  rewrite !decide_False by assumption.
  rewrite Hcmd. reflexivity.
Qed.

(** X11: with a sub-command that is none of the four, and no flag empty,
    [main] prints "Must provide valid command. See -h for more info." and
    exits with status 1 without sending anything. *)
Theorem main_invalid_command os_Args env w fs command :
  os_Args !! 1%nat = Some command →
  Parse mainFlags (drop 2 os_Args) = inr fs →
  flagValue fs "awsAccessKey" ≠ "" →
  flagValue fs "loggingName" ≠ "" →
  flagValue fs "serviceID" ≠ "" →
  command ∉ ["rotate-creds"; "describe"; "delete"; "create"] →
  main remote os_Args env w
  = (print ("Must provide valid command. See -h for more info." +:+ newline)
       w, Exit 1).
Proof.
  intros Hcmd Hparse Ha Hl Hs Hnot.
  rewrite (main_after_checks _ _ _ _ _ Hcmd Hparse Ha Hl Hs).
  rewrite !not_elem_of_cons in Hnot.
  destruct Hnot as (N1 & N2 & N3 & N4 & _).
  rewrite !decide_False by assumption. reflexivity.
Qed.

(** X12: when the flags parse, [checkArgs] reports the first empty flag in
    name order: [awsAccessKey] if it is empty, else [loggingName] if it is,
    else [serviceID]; each time with exit status 1 and nothing sent. *)
Theorem main_names_first_missing_flag os_Args env w fs :
  (2 ≤ length os_Args)%nat →
  Parse mainFlags (drop 2 os_Args) = inr fs →
  let missing (name : string) : World * Outcome unit :=
    (print ("Missing required arg '" +:+ name +:+ "'." +:+ newline) w,
     Exit 1) in
  (flagValue fs "awsAccessKey" = "" →
   main remote os_Args env w = missing "awsAccessKey")
  ∧ (flagValue fs "awsAccessKey" ≠ "" →
     flagValue fs "loggingName" = "" →
     main remote os_Args env w = missing "loggingName")
  ∧ (flagValue fs "awsAccessKey" ≠ "" →
     flagValue fs "loggingName" ≠ "" →
     flagValue fs "serviceID" = "" →
     main remote os_Args env w = missing "serviceID").
Proof.
  intros Hlen Hparse missing. subst missing.
  assert (Hexit : ∀ w' code,
            checkEach (sortFlags (formal fs)) w = (w', Exit code) →
            main remote os_Args env w = (w', Exit code)).
  { intros w' code Hc. unfold main. rewrite decide_False by lia.
    unfold pbind. unfold CommandLine_Parse. fold mainFlags.
    rewrite Hparse. unfold checkArgs. rewrite Hc. reflexivity. }
  rewrite (sortFlags_main _ _ Hparse) in Hexit. simpl in Hexit.
  split; [|split].
  - intros Ha. apply Hexit. rewrite decide_True by exact Ha. reflexivity.
  - intros Ha Hl. apply Hexit. rewrite decide_False by exact Ha.
    rewrite decide_True by exact Hl. reflexivity.
  - intros Ha Hl Hs. apply Hexit. rewrite decide_False by exact Ha.
    rewrite decide_False by exact Hl. rewrite decide_True by exact Hs.
    reflexivity.
Qed.

(** X13: with one of the four sub-commands and no flag empty, [main] runs
    [updateService] for the service of the [serviceID] flag, with the key of
    [FASTLY_KEY] and the mutation of the sub-command; when that returns an
    error, the error's message and a newline are printed and the exit status
    is 1; otherwise [main] returns normally, having printed nothing of its
    own. *)
Theorem main_runs_command os_Args env w fs command s :
  os_Args !! 1%nat = Some command →
  Parse mainFlags (drop 2 os_Args) = inr fs →
  flagValue fs "awsAccessKey" ≠ "" →
  flagValue fs "loggingName" ≠ "" →
  flagValue fs "serviceID" ≠ "" →
  strategyOf command fs env = Some s →
  let fastlyKey := os_Getenv env "FASTLY_KEY" in
  let serviceID := flagValue fs "serviceID" in
  main remote os_Args env w
  = (let (w', e) := updateService remote fastlyKey serviceID
                      (mutation remote fastlyKey serviceID s) w in
     match e with
     | Some e => (print (Error e +:+ newline) w', Exit 1)
     | None => (w', Done tt)
     end).
Proof.
  intros Hcmd Hparse Ha Hl Hs Hstrat fastlyKey serviceID.
  rewrite (main_after_checks _ _ _ _ _ Hcmd Hparse Ha Hl Hs).
  unfold strategyOf in Hstrat.
  repeat case_decide; try discriminate; injection Hstrat as <-;
    unfold rotateCreds, describeLogs, deleteLogs, createLogs, pbind, lift,
      check, mutation; fold fastlyKey; fold serviceID;
    match goal with
    | |- context [updateService remote fastlyKey serviceID ?fn w] =>
        destruct (updateService remote fastlyKey serviceID fn w)
          as [w' [e|]]; reflexivity
    end.
Qed.

(** X14: after parsing, a flag that was not given has its default: empty
    for [serviceID] and [awsAccessKey], "s3-logs" for [loggingName]. *)
Theorem main_flag_defaults arguments fs :
  Parse mainFlags arguments = inr fs →
  ("serviceID" ∉ actual fs → flagValue fs "serviceID" = "")
  ∧ ("awsAccessKey" ∉ actual fs → flagValue fs "awsAccessKey" = "")
  ∧ ("loggingName" ∉ actual fs → flagValue fs "loggingName" = "s3-logs").
Proof.
  intros Hparse.
  destruct (parseFlags_unset _ _ _ _ _ (Nat.le_refl _) Hparse)
    as (_ & Hval & _).
  unfold flagValue.
  repeat split; intros Hnot; rewrite (Hval _ Hnot); reflexivity.
Qed.

End Dispatch.

Lemma main_invalid_command_witness :
  main (lib := demoLib) demoRemote
    ["fastly-logging-creds"; "rotate"; "-serviceID=abc"; "-awsAccessKey=AK"]
    demoEnv w0
  = (print ("Must provide valid command. See -h for more info." +:+ newline)
       w0, Exit 1).
Proof.
  apply (main_invalid_command (lib := demoLib) demoRemote
           ["fastly-logging-creds"; "rotate"; "-serviceID=abc";
            "-awsAccessKey=AK"] demoEnv w0 demoFlags "rotate").
  - reflexivity.
  - vm_compute. reflexivity.
  - discriminate.
  - discriminate.
  - discriminate.
  - rewrite !not_elem_of_cons. repeat split; try discriminate.
    apply not_elem_of_nil.
Defined.

Lemma main_names_first_missing_flag_witness :
  let os_Args := ["fastly-logging-creds"; "describe"; "-awsAccessKey=AK";
                  "-loggingName="] in
  main (lib := demoLib) demoRemote os_Args demoEnv w0
  = (print ("Missing required arg 'loggingName'." +:+ newline) w0, Exit 1).
Proof.
  intros os_Args.
  apply (proj1 (proj2 (main_names_first_missing_flag (lib := demoLib)
                         demoRemote os_Args demoEnv w0
                         (mkFlagSet
                            (<["loggingName" := ""]>
                               (<["awsAccessKey" := "AK"]>
                                  (formal mainFlags)))
                            {[ "loggingName"; "awsAccessKey" ]} [])
                         ltac:(simpl; lia)
                         ltac:(vm_compute; reflexivity)))).
  - discriminate.
  - reflexivity.
Defined.

Lemma main_runs_command_witness :
  main (lib := demoLib) demoRemote
    ["fastly-logging-creds"; "delete"; "-serviceID=abc"; "-awsAccessKey=AK"]
    demoEnv w0
  = (let (w', e) := updateService (lib := demoLib) demoRemote "fk" "abc"
                      (deleteLogs_fn (lib := demoLib) demoRemote "fk" "abc")
                      w0 in
     match e with
     | Some e => (print (Error e +:+ newline) w', Exit 1)
     | None => (w', Done tt)
     end).
Proof.
  apply (main_runs_command (lib := demoLib) demoRemote
           ["fastly-logging-creds"; "delete"; "-serviceID=abc";
            "-awsAccessKey=AK"] demoEnv w0 demoFlags "delete" Delete).
  - reflexivity.
  - vm_compute. reflexivity.
  - discriminate.
  - discriminate.
  - discriminate.
  - reflexivity.
Defined.

Lemma main_flag_defaults_witness :
  Parse mainFlags ["-serviceID=abc"; "-awsAccessKey=AK"] = inr demoFlags
  ∧ flagValue demoFlags "loggingName" = "s3-logs".
Proof.
  assert (Hparse : Parse mainFlags ["-serviceID=abc"; "-awsAccessKey=AK"]
                   = inr demoFlags) by (vm_compute; reflexivity).
  split; [exact Hparse|].
  apply (main_flag_defaults _ _ Hparse).
  simpl. intros Hin. apply elem_of_union in Hin as [Hin|Hin];
    apply elem_of_singleton in Hin; discriminate.
Defined.

Section EndToEnd.

Context {lib : GoLib} (remote : Remote).

(** One accepted call sends its request and returns no error. *)
Lemma fastlyHTTP_accepted path method fastlyKey reqBody w :
  accepted remote (trace w)
    (api_request method ("https://api.fastly.com" +:+ path) fastlyKey
       reqBody) →
  ∃ body, fastlyHTTP remote path method fastlyKey reqBody w
          = (send (api_request method ("https://api.fastly.com" +:+ path)
                     fastlyKey reqBody) w, (body, None)).
Proof.
  intros (Hn & resp & body & Hr & Hs & Hb). exists body.
  rewrite (fastlyHTTP_reply remote path method fastlyKey reqBody w resp body
             Hn Hr Hb).
  rewrite decide_True by exact Hs. reflexivity.
Qed.

(** X15: a rotation that meets no refusal sends exactly four requests, in
    this order: the GET of the version list, the PUT that clones the first
    active version, the PUT to the named endpoint of the clone whose body
    encodes the form of the two credential fields, and the PUT that activates
    the clone, each with the two headers of the request helper;
    [rotateCreds] then returns normally and prints nothing.  No other version
    is activated. *)
Theorem rotateCreds_end_to_end fastlyKey serviceID loggingName awsAccessKey
    awsSecretKey w resp1 body1 data active others resp2 body2 clone :
  let headers := [("Fastly-Key", fastlyKey); ("Accept", "application/json")] in
  let service := "https://api.fastly.com/service/" +:+ serviceID in
  let r1 := mkRequest MethodGet (service +:+ "/version") headers None in
  let r2 := mkRequest MethodPut
              (service +:+ "/version/" +:+ pretty (Number active) +:+ "/clone")
              headers None in
  let r3 := mkRequest MethodPut
              (service +:+ "/version/" +:+ pretty (Number clone)
               +:+ "/logging/s3/" +:+ loggingName)
              headers
              (Some (Encode ({[ "access_key" := [awsAccessKey];
                                "secret_key" := [awsSecretKey] ]}
                             : gmap string (list string)))) in
  let r4 := mkRequest MethodPut
              (service +:+ "/version/" +:+ pretty (Number clone)
               +:+ "/activate")
              headers None in
  NewRequest_err MethodGet (URL r1) = None →
  remote (trace w) r1 = inr resp1 →
  StatusCode resp1 = 200 →
  ReadAll resp1 = (body1, None) →
  Unmarshal_Versions body1 = (data, None) →
  List.filter Active data = active :: others →
  NewRequest_err MethodPut (URL r2) = None →
  remote (trace w ++ [r1])%list r2 = inr resp2 →
  StatusCode resp2 = 200 →
  ReadAll resp2 = (body2, None) →
  Unmarshal_Version body2 = (clone, None) →
  accepted remote (trace w ++ [r1; r2])%list r3 →
  accepted remote (trace w ++ [r1; r2; r3])%list r4 →
  rotateCreds remote fastlyKey serviceID loggingName awsAccessKey
    awsSecretKey w
  = (sendAll [r1; r2; r3; r4] w, Done tt).
Proof.
  intros headers service r1 r2 r3 r4
    Hn1 Hr1 Hs1 Hb1 Hj1 Hact Hn2 Hr2 Hs2 Hb2 Hj2 Ha3 Ha4.
  assert (H1 : getActiveService remote serviceID fastlyKey w
               = (send r1 w, (Number active, None))).
  { unfold getActiveService, bind.
    rewrite (fastlyHTTP_reply remote
               ("/service/" +:+ serviceID +:+ "/version") MethodGet
               fastlyKey None w resp1 body1 Hn1 Hr1 Hb1).
    rewrite decide_True by exact Hs1. rewrite Hj1. unfold ret.
    rewrite firstActive_filter, Hact. reflexivity. }
  assert (H2 : cloneService remote serviceID (Number active) fastlyKey
                 (send r1 w)
               = (send r2 (send r1 w), (Number clone, None))).
  { unfold cloneService, bind.
    rewrite (fastlyHTTP_reply remote
               ("/service/" +:+ serviceID +:+ "/version/"
                +:+ pretty (Number active) +:+ "/clone") MethodPut
               fastlyKey None (send r1 w) resp2 body2 Hn2 Hr2 Hb2).
    rewrite decide_True by exact Hs2. rewrite Hj2. reflexivity. }
  assert (H3 : rotateCreds_fn remote fastlyKey serviceID loggingName
                 awsAccessKey awsSecretKey (Number clone)
                 (send r2 (send r1 w))
               = (send r3 (send r2 (send r1 w)), None)).
  { unfold rotateCreds_fn, updateLoggingCreds, bind.
    destruct (fastlyHTTP_accepted
                ("/service/" +:+ serviceID +:+ "/version/"
                 +:+ pretty (Number clone) +:+ "/logging/s3/"
                 +:+ loggingName)
                MethodPut fastlyKey
                (Some (Encode ({[ "access_key" := [awsAccessKey];
                                  "secret_key" := [awsSecretKey] ]}
                               : gmap string (list string))))
                (send r2 (send r1 w))) as [b Hb].
    { simpl. rewrite <- app_assoc. exact Ha3. }
    rewrite Hb. reflexivity. }
  assert (H4 : activateService remote serviceID (Number clone) fastlyKey
                 (send r3 (send r2 (send r1 w)))
               = (send r4 (send r3 (send r2 (send r1 w))), None)).
  { unfold activateService, bind.
    destruct (fastlyHTTP_accepted
                ("/service/" +:+ serviceID +:+ "/version/"
                 +:+ pretty (Number clone) +:+ "/activate")
                MethodPut fastlyKey None
                (send r3 (send r2 (send r1 w)))) as [b Hb].
    { simpl. rewrite <- !app_assoc. exact Ha4. }
    rewrite Hb. reflexivity. }
  unfold rotateCreds, pbind, lift.
  rewrite (updateService_after_clone remote _ _ _ _ _ _ _ _ _ _ H1 H2 H3).
  rewrite H4. simpl. rewrite !sendAll_cons, sendAll_nil. reflexivity.
Qed.

End EndToEnd.

Lemma rotateCreds_end_to_end_witness :
  let headers := [("Fastly-Key", "fk"); ("Accept", "application/json")] in
  rotateCreds (lib := demoLib) demoRemote "fk" "abc" "s3-logs" "AK" "SK" w0
  = (mkWorld
       [mkRequest MethodGet "https://api.fastly.com/service/abc/version"
          headers None;
        mkRequest MethodPut
          "https://api.fastly.com/service/abc/version/5/clone" headers None;
        mkRequest MethodPut
          "https://api.fastly.com/service/abc/version/6/logging/s3/s3-logs"
          headers (Some "access_key=AK&secret_key=SK");
        mkRequest MethodPut
          "https://api.fastly.com/service/abc/version/6/activate" headers
          None] "" "",
     Done tt).
Proof.
  intros headers.
  apply (rotateCreds_end_to_end (lib := demoLib) demoRemote "fk" "abc"
           "s3-logs" "AK" "SK" w0
           (mkResponse 200 ("versions", None)) "versions" demoVersions
           (mkVersion true 5) []
           (mkResponse 200 ("version 6", None)) "version 6"
           (mkVersion false 6));
    try reflexivity; accept_demo.
Defined.

(** * Properties of the earlier programs *)

Section Earlier.

Context {lib : GoLib} (remote : Remote).
Variable URL_String : string -> string -> string -> string.

(** Both earlier programs up to their five checks: past [flag.Parse], the
    goal is put as [checkInOrder] on the checked inputs. *)
Ltac earlier_start Hlen Hparse :=
  unfold pbind at 1; unfold flag_Parse;
  rewrite decide_False by lia; unfold CommandLine_Parse;
  fold earlierFlags; rewrite Hparse;
  match goal with
  | |- pbind (checkArg ?n1 ?v1) (fun _ =>
         pbind (checkArg ?n2 ?v2) (fun _ =>
           pbind (checkArg ?n3 ?v3) (fun _ =>
             pbind (checkArg ?n4 ?v4) (fun _ =>
               pbind (checkArg ?n5 ?v5) (fun _ => ?rest))))) ?w = ?rhs =>
      change (checkInOrder [(n1, v1); (n2, v2); (n3, v3); (n4, v4); (n5, v5)]
                rest w = rhs)
  end.

Lemma checks_stop (rest : Proc unit) w
    (pre post : list (string * string)) name :
  Forall (fun nv => nv.2 ≠ "") pre →
  checkInOrder (pre ++ (name, "") :: post)%list rest w
  = (print ("Missing required arg '" +:+ name +:+ "'." +:+ newline) w,
     Exit 1).
Proof.
  induction 1 as [|[n v] pre Hv _ IH]; simpl; unfold pbind, checkArg.
  - rewrite decide_True by reflexivity. reflexivity.
  - simpl in Hv. rewrite decide_False by exact Hv. exact IH.
Qed.

Lemma checks_pass (rest : Proc unit) w (inputs : list (string * string)) :
  Forall (fun nv => nv.2 ≠ "") inputs →
  checkInOrder inputs rest w = rest w.
Proof.
  induction 1 as [|[n v] pre Hv _ IH]; simpl; [reflexivity|].
  unfold pbind, checkArg.
  simpl in Hv. rewrite decide_False by exact Hv. exact IH.
Qed.

(** X16: both earlier programs check five inputs in a fixed order, the
    three flags and then [AWS_SECRET_KEY] and [FASTLY_KEY] of the
    environment: when the flags parse, the first of them that is empty is
    named in "Missing required arg" and the exit status is 1, nothing having
    been sent. *)
Theorem earlier_main_missing_input os_Args env w fs pre name post :
  (1 ≤ length os_Args)%nat →
  Parse earlierFlags (drop 1 os_Args) = inr fs →
  checkedInputs fs env = (pre ++ (name, "") :: post)%list →
  Forall (fun nv => nv.2 ≠ "") pre →
  let missing : World * Outcome unit :=
    (print ("Missing required arg '" +:+ name +:+ "'." +:+ newline) w,
     Exit 1) in
  V1.main remote URL_String os_Args env w = missing
  ∧ V0.main remote os_Args env w = missing.
Proof.
  intros Hlen Hparse Hsplit Hpre missing. subst missing. split.
  - unfold V1.main. earlier_start Hlen Hparse.
    fold (checkedInputs fs env). rewrite Hsplit.
    apply checks_stop. exact Hpre.
  - unfold V0.main. earlier_start Hlen Hparse.
    fold (checkedInputs fs env). rewrite Hsplit.
    apply checks_stop. exact Hpre.
Qed.


(** X18: in the second program the error of the activation is dropped:
    once the version list, the clone and the update went through, [main]
    returns normally whatever [activateService] returns, and prints nothing
    about it. *)
Theorem V0_main_ignores_activation_error os_Args env w fs w1 v w2 nv w3 :
  (1 ≤ length os_Args)%nat →
  Parse earlierFlags (drop 1 os_Args) = inr fs →
  Forall (fun nv => nv.2 ≠ "") (checkedInputs fs env) →
  let serviceID := flagValue fs "serviceID" in
  let fastlyKey := os_Getenv env "FASTLY_KEY" in
  getActiveService remote serviceID fastlyKey w = (w1, (v, None)) →
  cloneService remote serviceID v fastlyKey
    (eprint (pretty v +:+ newline) w1) = (w2, (nv, None)) →
  V0.updateLoggingCreds remote serviceID nv (flagValue fs "loggingName")
    fastlyKey (eprint (pretty nv +:+ newline) w2) = (w3, None) →
  V0.main remote os_Args env w
  = ((activateService remote serviceID nv fastlyKey w3).1, Done tt).
Proof.
  intros Hlen Hparse Hall serviceID fastlyKey H1 H2 H3.
  unfold V0.main. earlier_start Hlen Hparse.
  fold (checkedInputs fs env). rewrite (checks_pass _ _ _ Hall).
  fold serviceID. fold fastlyKey.
  unfold pbind, lift, check, V0.println.
  rewrite H1, H2, H3.
  destruct (activateService remote serviceID nv fastlyKey w3) as [w4 e].
  reflexivity.
Qed.

End Earlier.

Section EarlierRequests.

Context {lib : GoLib} (remote : Remote).
Variable Q : Request -> Prop.

Lemma pkeeps_pbind {A B} (m : Proc A) (k : A -> Proc B) :
  pkeeps Q m → (∀ a, pkeeps Q (k a)) → pkeeps Q (pbind m k).
Proof.
  intros Hm Hk w Hw. unfold pbind. specialize (Hm w Hw).
  destruct (m w) as [w' [a|code|msg]]; [exact (Hk a w' Hm) | exact Hm..].
Qed.

Lemma pkeeps_lift {A} (m : IO A) : keeps Q m → pkeeps Q (lift m).
Proof.
  intros Hm w Hw. unfold lift. specialize (Hm w Hw).
  destruct (m w) as [w' a]. exact Hm.
Qed.

Lemma pkeeps_same_trace {A} (m : Proc A) :
  (∀ w, trace (m w).1 = trace w) → pkeeps Q m.
Proof. intros Hm w Hw. rewrite Hm. exact Hw. Qed.

Lemma flag_Parse_trace f os_Args w :
  trace (flag_Parse f os_Args w).1 = trace w.
Proof.
  unfold flag_Parse. case_decide; [reflexivity|].
  unfold CommandLine_Parse. destruct (Parse _ _) as [[|msg]|fs]; reflexivity.
Qed.

Lemma checkArg_trace name value w :
  trace (checkArg name value w).1 = trace w.
Proof. unfold checkArg. case_decide; reflexivity. Qed.

Lemma check_trace e w : trace (check e w).1 = trace w.
Proof. destruct e; reflexivity. Qed.

End EarlierRequests.

(** X19: the second program sends no credentials: whatever the command
    line, the environment and the remote, none of the requests of a run has
    a body, although the access key and the secret key are required. *)
Theorem V0_main_sends_no_body {lib : GoLib} (remote : Remote) os_Args env w :
  ∀ r, r ∈ trace (V0.main remote os_Args env w).1 →
    r ∈ trace w ∨ Body r = None.
Proof.
  intros r Hr.
  set (Q := fun r : Request => r ∈ trace w ∨ Body r = None).
  assert (Hq : ∀ method url key, Q (api_request method url key None))
    by (intros; right; reflexivity).
  assert (Hk : pkeeps Q (V0.main remote os_Args env)).
  { unfold V0.main.
    apply pkeeps_pbind;
      [apply pkeeps_same_trace, flag_Parse_trace | intros f].
    do 5 (apply pkeeps_pbind;
            [apply pkeeps_same_trace, checkArg_trace | intros _]).
    apply pkeeps_pbind;
      [apply pkeeps_lift, keeps_getActiveService, Hq | intros [v e]].
    apply pkeeps_pbind; [apply pkeeps_same_trace, check_trace | intros _].
    apply pkeeps_pbind;
      [apply pkeeps_same_trace; reflexivity | intros _].
    apply pkeeps_pbind;
      [apply pkeeps_lift, keeps_cloneService, Hq | intros [nv e']].
    apply pkeeps_pbind; [apply pkeeps_same_trace, check_trace | intros _].
    apply pkeeps_pbind;
      [apply pkeeps_same_trace; reflexivity | intros _].
    apply pkeeps_pbind.
    { apply pkeeps_lift. unfold V0.updateLoggingCreds.
      apply keeps_bind; [apply keeps_fastlyHTTP, Hq|].
      intros [b e'']. apply keeps_ret. }
    intros e''.
    apply pkeeps_pbind; [apply pkeeps_same_trace, check_trace | intros _].
    apply pkeeps_pbind;
      [apply pkeeps_lift, keeps_activateService, Hq | intros _].
    apply pkeeps_same_trace. reflexivity. }
  assert (Hall : Forall Q (trace (V0.main remote os_Args env w).1)).
  { apply Hk. apply Forall_forall. intros x Hx. left. exact Hx. }
  rewrite Forall_forall in Hall. exact (Hall r Hr).
Qed.

Lemma earlier_main_missing_input_witness :
  let os_Args := ["fastly-logging-creds"; "-serviceID=abc"; "-loggingName";
                  "s3-logs"; "-awsAccessKey=AK"] in
  let env : gmap string string := {[ "FASTLY_KEY" := "fk" ]} in
  let missing : World * Outcome unit :=
    (print ("Missing required arg 'AWS_SECRET_KEY'." +:+ newline) w0,
     Exit 1) in
  V1.main (lib := demoLib) demoRemote plainURL os_Args env w0 = missing
  ∧ V0.main (lib := demoLib) demoRemote os_Args env w0 = missing.
Proof.
  intros os_Args env missing.
  apply (earlier_main_missing_input (lib := demoLib) demoRemote plainURL
           os_Args env w0 earlierDemoFlags
           [("serviceID", "abc"); ("loggingName", "s3-logs");
            ("awsAccessKey", "AK")]
           "AWS_SECRET_KEY" [("FASTLY_KEY", "fk")]).
  - simpl. lia.
  - vm_compute. reflexivity.
  - reflexivity.
  - repeat constructor; discriminate.
Defined.


Lemma V0_main_ignores_activation_error_witness :
  let w3 := mkWorld
      [versionsRequest "abc" "fk"; cloneRequest "abc" 5 "fk";
       api_request MethodPut
         "https://api.fastly.com/service/abc/version/6/logging/s3/s3-logs"
         "fk" None]
      "" ("5" +:+ newline +:+ "6" +:+ newline) in
  (activateService (lib := demoLib) activateFailRemote "abc" 6 "fk" w3).2
  = Some (errors_New
      "Fastly API request for 'https://api.fastly.com/service/abc/version/6/activate' failed: 503, busy")
  ∧ V0.main (lib := demoLib) activateFailRemote earlierArgs demoEnv w0
    = (send (activateRequest "abc" 6 "fk") w3, Done tt).
Proof.
  intros w3. split; [vm_compute; reflexivity|].
  assert (Hparse : Parse earlierFlags (drop 1 earlierArgs)
                   = inr earlierDemoFlags) by (vm_compute; reflexivity).
  assert (Hall : Forall (fun nv => nv.2 ≠ "")
                   (checkedInputs earlierDemoFlags demoEnv))
    by (repeat constructor; discriminate).
  rewrite (V0_main_ignores_activation_error (lib := demoLib)
             activateFailRemote earlierArgs demoEnv w0 earlierDemoFlags
             (send (versionsRequest "abc" "fk") w0) 5
             (send (cloneRequest "abc" 5 "fk")
                (eprint ("5" +:+ newline)
                   (send (versionsRequest "abc" "fk") w0)))
             6 w3 ltac:(simpl; lia) Hparse Hall);
    vm_compute; reflexivity.
Defined.

Lemma V0_main_sends_no_body_witness :
  let r := api_request MethodPut
             "https://api.fastly.com/service/abc/version/6/logging/s3/s3-logs"
             "fk" None in
  r ∈ trace (V0.main (lib := demoLib) demoRemote earlierArgs demoEnv w0).1
  ∧ (r ∈ trace w0 ∨ Body r = None).
Proof.
  intros r.
  assert (Hr : r ∈ trace (V0.main (lib := demoLib) demoRemote earlierArgs
                           demoEnv w0).1).
  { vm_compute. apply list_elem_of_further, list_elem_of_further,
      list_elem_of_here. }
  split; [exact Hr|].
  exact (V0_main_sends_no_body (lib := demoLib) demoRemote earlierArgs demoEnv
           w0 r Hr).
Defined.

Lemma fastlyHTTP_frame_witness :
  let r := fastlyHTTP (lib := demoLib) busyRemote "/service/abc/version"
             MethodGet "fk" None w0 in
  r.2.2 ≠ None ∧ r.2.1 = "" ∧ stdout r.1 = "" ∧ stderr r.1 = "".
Proof.
  intros r.
  destruct (fastlyHTTP_frame (lib := demoLib) busyRemote
              "/service/abc/version" MethodGet "fk" None w0)
    as (Ho & He & _ & Hb).
  assert (Hne : r.2.2 ≠ None) by discriminate.
  split; [exact Hne|]. split; [exact (Hb Hne)|].
  split; [exact Ho | exact He].
Defined.

Lemma describeLogs_fn_read_only_witness :
  let get := mkRequest MethodGet
               "https://api.fastly.com/service/abc/version/6/logging/s3"
               [("Fastly-Key", "fk"); ("Accept", "application/json")] None in
  describeLogs_fn (lib := demoLib) demoRemote "fk" "abc" 6 w0
  = (mkWorld [get] ("endpoints" +:+ newline) "", None)
  ∧ (describeLogs_fn (lib := demoLib) busyRemote "fk" "abc" 6 w0).1
    = mkWorld [get] "" "".
Proof.
  intros get. split.
  - apply (proj1 (describeLogs_fn_read_only (lib := demoLib) demoRemote "abc"
                    6 "fk" w0) (mkResponse 200 ("endpoints", None))
             "endpoints"); reflexivity.
  - destruct (proj1 (proj2 (proj2 (describeLogs_fn_read_only (lib := demoLib)
                                     busyRemote "abc" 6 "fk" w0))))
      as [Hw | Hw].
    + discriminate.
    + vm_compute in Hw. discriminate Hw.
    + exact Hw.
Defined.
